(** * Cursor Pro limits monitor: a shallow embedding of [CursorLimitsMonitor]

    The development follows the TypeScript sources [types.ts] and
    [cursorLimitsMonitor.ts] (the tier-aware revision of the class), and
    [index.ts], the MCP server that answers tool calls from the monitor.

    Conventions of the embedding.

    - A JavaScript [number] is a binary64 floating-point number, the
      primitive type [float]: [/], [*] and [-] round to nearest even, [===]
      is the IEEE equality [=?] (false on [NaN], true between the two
      zeros), [>=] is [<=?] with the operands swapped, [Math.min] and
      [Math.max] are written out below.  The decimal literals [0.8] and
      [0.95] denote the nearest binary64 numbers, as in the source.
    - A [Date] is the clock reading in milliseconds; [new Date()] is the
      argument [now] of the method that evaluates it.
    - A callback is known by the identity of its function object (a [nat]);
      calling it is recorded in the list of calls a method performs.  A
      callback is passive: it returns, and it does not call back into the
      monitor.  What the two updates do when a callback throws is the
      subject of the module [Throwing].
    - A method of the class is a function from the receiver [this] to its
      result, the receiver afterwards, and the calls it made, in order.
    - Arguments have their declared types, except the tier, which the
      class compares with its three literals and lets fall through to a
      default: a service is one of the four tokens, so the [default]
      branches of [getCurrentUsage] and [getMaxUsage] have no counterpart,
      and a property of a partial update is absent or a number. *)

From Stdlib Require Import ZArith Floats List String Bool Lia.
Import ListNotations.

Set Warnings "-inexact-float".
Open Scope float_scope.

(** ** types.ts *)

Definition number : Type := float.
Definition Date : Type := Z.

(** [export type SubscriptionTier = 'pro' | 'pro-plus' | 'ultra'].  The type
    is erased at run time, so a tier argument is any string. *)
Definition SubscriptionTier : Type := string.

Module ServiceType.
(** [export type ServiceType = 'sonnet45' | 'gemini' | 'gpt5' | 'total'] *)
Inductive t : Type := sonnet45 | gemini | gpt5 | total.
End ServiceType.

Module CursorProLimits.
Record t : Type := mk {
  sonnet45Requests : number;
  geminiRequests : number;
  gpt5Requests : number;
  totalRequests : number;
  lastUpdated : Date
}.

Arguments mk _ _ _ _ _%_Z.
End CursorProLimits.

Module PartialLimits.
(** [Partial<CursorProLimits>]: every property may be absent. *)
Record t : Type := mk {
  sonnet45Requests : option number;
  geminiRequests : option number;
  gpt5Requests : option number;
  totalRequests : option number;
  lastUpdated : option Date
}.
End PartialLimits.

Module CursorProQuotas.
Record t : Type := mk {
  maxSonnet45Requests : number;
  maxGeminiRequests : number;
  maxGpt5Requests : number;
  maxTotalRequests : number;
  tier : SubscriptionTier
}.

Arguments mk _ _ _ _ _%_string.
End CursorProQuotas.

Module PerService.
(** The object type [{ sonnet45; gemini; gpt5; total }] of
    [usagePercentages] and [remaining]. *)
Record t : Type := mk {
  sonnet45 : number;
  gemini : number;
  gpt5 : number;
  total : number
}.

(** [o[service]] *)
Definition get (o : t) (service : ServiceType.t) : number :=
  match service with
  | ServiceType.sonnet45 => sonnet45 o
  | ServiceType.gemini => gemini o
  | ServiceType.gpt5 => gpt5 o
  | ServiceType.total => total o
  end.
End PerService.

Module UsageStats.
Record t : Type := mk {
  limits : CursorProLimits.t;
  quotas : CursorProQuotas.t;
  usagePercentages : PerService.t;
  remaining : PerService.t
}.
End UsageStats.

Module ServiceUsage.
Record t : Type := mk {
  service : ServiceType.t;
  current : number;
  max : number;
  percentage : number;
  remaining : number;
  isWarning : bool;
  isCritical : bool
}.
End ServiceUsage.

(** ** Built-ins of the language the class relies on *)

Module Math.
(** [Math.min(a, b)] and [Math.max(a, b)]: [NaN] as soon as an argument is
    [NaN]; the smaller, respectively the larger, of the two otherwise, [-0]
    counting as smaller than [+0]. *)
Definition min (a b : number) : number :=
  if is_nan a || is_nan b then nan
  else if a <? b then a
  else if b <? a then b
  else if get_sign a then a else b.

Definition max (a b : number) : number :=
  if is_nan a || is_nan b then nan
  else if a <? b then b
  else if b <? a then a
  else if get_sign a then b else a.

Arguments min (a b)%_float.
Arguments max (a b)%_float.
End Math.

(** [a >= b] on numbers *)
Definition geq (a b : number) : bool := b <=? a.

(** [{ ...base, ...overrides }] for the properties of [CursorProLimits] *)
Definition spread (base : CursorProLimits.t) (overrides : PartialLimits.t)
  : CursorProLimits.t :=
  let pick {A : Type} (o : option A) (d : A) : A :=
    match o with Some v => v | None => d end in
  CursorProLimits.mk
    (pick (PartialLimits.sonnet45Requests overrides)
          (CursorProLimits.sonnet45Requests base))
    (pick (PartialLimits.geminiRequests overrides)
          (CursorProLimits.geminiRequests base))
    (pick (PartialLimits.gpt5Requests overrides)
          (CursorProLimits.gpt5Requests base))
    (pick (PartialLimits.totalRequests overrides)
          (CursorProLimits.totalRequests base))
    (pick (PartialLimits.lastUpdated overrides)
          (CursorProLimits.lastUpdated base)).

Module JSArray.
Section Elements.
Variable A : Type.
Variable same : A -> A -> bool.

(** [Array.prototype.indexOf]: the first index holding the element,
    [-1] when there is none. *)
Fixpoint indexOf_from (l : list A) (x : A) (i : Z) : Z :=
  match l with
  | [] => (-1)%Z
  | y :: rest => if same y x then i else indexOf_from rest x (i + 1)%Z
  end.

Definition indexOf (l : list A) (x : A) : Z := indexOf_from l x 0%Z.

(** [Array.prototype.splice(start, deleteCount)], the array afterwards. *)
Definition splice (l : list A) (start deleteCount : Z) : list A :=
  let len := Z.of_nat (List.length l) in
  let s := if (start <? 0)%Z then Z.max (len + start) 0
           else Z.min start len in
  let d := Z.min (Z.max deleteCount 0) (len - s) in
  firstn (Z.to_nat s) l ++ skipn (Z.to_nat (s + d)) l.
End Elements.

Arguments indexOf_from {A} same l x i.
Arguments indexOf {A} same l x.
Arguments splice {A} l start deleteCount.
End JSArray.

(** ** cursorLimitsMonitor.ts *)

Module CursorLimitsMonitor.

(** The identity of a function [(_stats: UsageStats) => void]. *)
Definition Callback : Type := nat.

(** The fields of an instance. *)
Record t : Type := mk {
  limits : CursorProLimits.t;
  quotas : CursorProQuotas.t;
  updateCallbacks : list Callback
}.

(** A call [callback(stats)]. *)
Definition Call : Type := (Callback * UsageStats.t)%type.

(** *** Methods: receiver in; result, receiver and calls out *)

Definition Method (A : Type) : Type := t -> A * t * list Call.

Definition result {A : Type} (o : A * t * list Call) : A := fst (fst o).
Definition after {A : Type} (o : A * t * list Call) : t := snd (fst o).
Definition calls {A : Type} (o : A * t * list Call) : list Call := snd o.

Definition ret {A : Type} (a : A) : Method A := fun this => (a, this, []).

Definition bind {A B : Type} (m : Method A) (k : A -> Method B) : Method B :=
  fun this =>
    let o1 := m this in
    let o2 := k (result o1) (after o1) in
    (result o2, after o2, calls o1 ++ calls o2).

Notation "x <- m ;; k" := (bind m (fun x => k))
  (at level 61, m at next level, right associativity).
Notation "m ;; k" := (bind m (fun _ => k))
  (at level 61, right associativity).

(** [this.f] *)
Definition read {A : Type} (f : t -> A) : Method A :=
  fun this => (f this, this, []).

(** [this.limits = v], [this.quotas = v], [this.updateCallbacks = v]
    (the last also stands for an in-place change of the array). *)
Definition set_limits (v : CursorProLimits.t) : Method unit :=
  fun this => (tt, mk v (quotas this) (updateCallbacks this), []).
Definition set_quotas (v : CursorProQuotas.t) : Method unit :=
  fun this => (tt, mk (limits this) v (updateCallbacks this), []).
Definition set_updateCallbacks (v : list Callback) : Method unit :=
  fun this => (tt, mk (limits this) (quotas this) v, []).

(** [callback(stats)] *)
Definition call (callback : Callback) (stats : UsageStats.t) : Method unit :=
  fun this => (tt, this, [(callback, stats)]).

(** [array.forEach(f)] *)
Fixpoint forEach {A : Type} (l : list A) (f : A -> Method unit)
  : Method unit :=
  match l with
  | [] => ret tt
  | x :: rest => f x ;; forEach rest f
  end.

(** [array.map(f)] with an effectful [f] *)
Fixpoint mapM {A B : Type} (f : A -> Method B) (l : list A)
  : Method (list B) :=
  match l with
  | [] => ret []
  | x :: rest => y <- f x ;; ys <- mapM f rest ;; ret (y :: ys)
  end.

(** *** getQuotasForTier *)

Definition getQuotasForTier (tier : SubscriptionTier) : CursorProQuotas.t :=
  if (tier =? "pro")%string then
    CursorProQuotas.mk 225 550 500 1275 "pro"
  else if (tier =? "pro-plus")%string then
    CursorProQuotas.mk 675 1650 1500 3825 "pro-plus"
  else if (tier =? "ultra")%string then
    CursorProQuotas.mk 4500 11000 10000 25500 "ultra"
  else
    CursorProQuotas.mk 225 550 500 1275 "pro".

Arguments getQuotasForTier tier%_string.

(** *** constructor(tier: SubscriptionTier = 'pro') *)

Definition new (now : Date) (tier : option SubscriptionTier) : t :=
  let tier := match tier with Some v => v | None => "pro"%string end in
  mk (CursorProLimits.mk 0 0 0 0 now) (getQuotasForTier tier) [].

Arguments new now%_Z tier.

(** *** calculatePercentage *)

Definition calculatePercentage (current max : number) : number :=
  if max =? 0 then 0
  else Math.min 100 ((current / max) * 100).

Arguments calculatePercentage (current max)%_float.

(** *** getUsageStats *)

Definition getUsageStats : Method UsageStats.t :=
  limits <- read limits ;;
  quotas <- read quotas ;;
  let usagePercentages :=
    PerService.mk
      (calculatePercentage (CursorProLimits.sonnet45Requests limits)
                           (CursorProQuotas.maxSonnet45Requests quotas))
      (calculatePercentage (CursorProLimits.geminiRequests limits)
                           (CursorProQuotas.maxGeminiRequests quotas))
      (calculatePercentage (CursorProLimits.gpt5Requests limits)
                           (CursorProQuotas.maxGpt5Requests quotas))
      (calculatePercentage (CursorProLimits.totalRequests limits)
                           (CursorProQuotas.maxTotalRequests quotas)) in
  let remaining :=
    PerService.mk
      (Math.max 0 (CursorProQuotas.maxSonnet45Requests quotas
                   - CursorProLimits.sonnet45Requests limits))
      (Math.max 0 (CursorProQuotas.maxGeminiRequests quotas
                   - CursorProLimits.geminiRequests limits))
      (Math.max 0 (CursorProQuotas.maxGpt5Requests quotas
                   - CursorProLimits.gpt5Requests limits))
      (Math.max 0 (CursorProQuotas.maxTotalRequests quotas
                   - CursorProLimits.totalRequests limits)) in
  ret (UsageStats.mk limits quotas usagePercentages remaining).

(** *** notifyCallbacks *)

Definition notifyCallbacks : Method unit :=
  stats <- getUsageStats ;;
  updateCallbacks <- read updateCallbacks ;;
  forEach updateCallbacks (fun callback => call callback stats).

(** *** updateTier, getCurrentTier *)

Definition updateTier (tier : SubscriptionTier) : Method unit :=
  set_quotas (getQuotasForTier tier) ;;
  notifyCallbacks.

Definition getCurrentTier : Method SubscriptionTier :=
  quotas <- read quotas ;;
  ret (CursorProQuotas.tier quotas).

(** *** updateLimits *)

Definition updateLimits (now : Date) (newLimits : PartialLimits.t)
  : Method unit :=
  limits <- read limits ;;
  (let merged := spread limits newLimits in
   set_limits (CursorProLimits.mk
                 (CursorProLimits.sonnet45Requests merged)
                 (CursorProLimits.geminiRequests merged)
                 (CursorProLimits.gpt5Requests merged)
                 (CursorProLimits.totalRequests merged)
                 now)) ;;
  notifyCallbacks.

Arguments updateLimits now%_Z newLimits _.
Arguments updateTier tier%_string _.

(** *** getCurrentUsage, getMaxUsage *)

Definition getCurrentUsage (service : ServiceType.t) : Method number :=
  limits <- read limits ;;
  ret (match service with
       | ServiceType.sonnet45 => CursorProLimits.sonnet45Requests limits
       | ServiceType.gemini => CursorProLimits.geminiRequests limits
       | ServiceType.gpt5 => CursorProLimits.gpt5Requests limits
       | ServiceType.total => CursorProLimits.totalRequests limits
       end).

Definition getMaxUsage (service : ServiceType.t) : Method number :=
  quotas <- read quotas ;;
  ret (match service with
       | ServiceType.sonnet45 => CursorProQuotas.maxSonnet45Requests quotas
       | ServiceType.gemini => CursorProQuotas.maxGeminiRequests quotas
       | ServiceType.gpt5 => CursorProQuotas.maxGpt5Requests quotas
       | ServiceType.total => CursorProQuotas.maxTotalRequests quotas
       end).

(** *** getServiceUsage *)

Definition getServiceUsage (service : ServiceType.t)
  : Method ServiceUsage.t :=
  stats <- getUsageStats ;;
  current <- getCurrentUsage service ;;
  max <- getMaxUsage service ;;
  let percentage := PerService.get (UsageStats.usagePercentages stats) service in
  let remaining := PerService.get (UsageStats.remaining stats) service in
  ret (ServiceUsage.mk service current max percentage remaining
         (geq percentage 0.8) (geq percentage 0.95)).

(** *** checkAlerts *)

Definition services : list ServiceType.t :=
  [ServiceType.sonnet45; ServiceType.gemini; ServiceType.gpt5;
   ServiceType.total].

Definition checkAlerts : Method (list ServiceUsage.t) :=
  usages <- mapM getServiceUsage services ;;
  ret (filter (fun usage => ServiceUsage.isWarning usage
                            || ServiceUsage.isCritical usage) usages).

(** *** onUpdate, removeUpdateCallback *)

Definition onUpdate (callback : Callback) : Method unit :=
  updateCallbacks <- read updateCallbacks ;;
  set_updateCallbacks (updateCallbacks ++ [callback]).

Definition removeUpdateCallback (callback : Callback) : Method unit :=
  updateCallbacks <- read updateCallbacks ;;
  let index := JSArray.indexOf Nat.eqb updateCallbacks callback in
  if (index >? -1)%Z then
    set_updateCallbacks (JSArray.splice updateCallbacks index 1)
  else ret tt.

End CursorLimitsMonitor.

Import CursorLimitsMonitor.

(** ** Sequences of calls on one monitor *)

(** One call of a public method, with its arguments. *)
Inductive Operation : Type :=
| UpdateLimits (now : Date) (newLimits : PartialLimits.t)
| UpdateTier (tier : SubscriptionTier)
| OnUpdate (callback : Callback)
| RemoveUpdateCallback (callback : Callback)
| GetUsageStats
| GetServiceUsage (service : ServiceType.t)
| CheckAlerts
| GetCurrentTier.

Arguments UpdateLimits now%_Z newLimits.
Arguments UpdateTier tier%_string.

(** The call, its result dropped. *)
Definition perform (op : Operation) : Method unit :=
  match op with
  | UpdateLimits now newLimits => updateLimits now newLimits
  | UpdateTier tier => updateTier tier
  | OnUpdate callback => onUpdate callback
  | RemoveUpdateCallback callback => removeUpdateCallback callback
  | GetUsageStats => bind getUsageStats (fun _ => ret tt)
  | GetServiceUsage service => bind (getServiceUsage service) (fun _ => ret tt)
  | CheckAlerts => bind checkAlerts (fun _ => ret tt)
  | GetCurrentTier => bind getCurrentTier (fun _ => ret tt)
  end.

Definition run (ops : list Operation) : Method unit := forEach ops perform.

(** ** Vocabulary of the properties *)

(** The count and the ceiling of a service, read through the class's own
    accessors, and the two derived figures [getUsageStats] reports for it. *)
Definition currentOf (m : t) (c : ServiceType.t) : number :=
  result (getCurrentUsage c m).
Definition ceilingOf (m : t) (c : ServiceType.t) : number :=
  result (getMaxUsage c m).
Definition percentageOf (m : t) (c : ServiceType.t) : number :=
  PerService.get (UsageStats.usagePercentages (result (getUsageStats m))) c.
Definition remainingOf (m : t) (c : ServiceType.t) : number :=
  PerService.get (UsageStats.remaining (result (getUsageStats m))) c.

(** The count a partial update supplies for a service, if any. *)
Definition supplied (p : PartialLimits.t) (c : ServiceType.t) : option number :=
  match c with
  | ServiceType.sonnet45 => PartialLimits.sonnet45Requests p
  | ServiceType.gemini => PartialLimits.geminiRequests p
  | ServiceType.gpt5 => PartialLimits.gpt5Requests p
  | ServiceType.total => PartialLimits.totalRequests p
  end.

(** An operation that supplies no negative count (and no [NaN]). *)
Definition nonnegative (op : Operation) : Prop :=
  match op with
  | UpdateLimits _ p =>
      forall c v, supplied p c = Some v -> (0 <=? v) = true
  | _ => True
  end.

(** A monitor built by the constructor and driven by operations that
    supply no negative count. *)
Definition reached_nonnegative (m : t) : Prop :=
  exists now tier ops,
    Forall nonnegative ops /\ m = after (run ops (new now tier)).

(** A method that leaves the receiver as it was and calls nothing. *)
Definition read_only {A : Type} (f : Method A) : Prop :=
  forall this, after (f this) = this /\ calls (f this) = [].

(** What the operations keep true when no negative count is supplied. *)
Definition counts_nonnegative (m : t) : Prop :=
  forall c, (0 <=? currentOf m c) = true.
Definition quotas_of_catalog (m : t) : Prop :=
  exists tier, quotas m = getQuotasForTier tier.

(** The registered list without the first occurrence of a callback. *)
Fixpoint remove_first (callback : Callback) (l : list Callback)
  : list Callback :=
  match l with
  | [] => []
  | x :: rest =>
      if Nat.eqb x callback then rest else x :: remove_first callback rest
  end.

(** The callbacks a sequence of operations is expected to notify, in order,
    when [registered] is the list at its start: every update notifies the
    callbacks registered at that moment, in registration order. *)
Fixpoint notified (ops : list Operation) (registered : list Callback)
  : list Callback :=
  match ops with
  | [] => []
  | UpdateLimits _ _ :: rest => registered ++ notified rest registered
  | UpdateTier _ :: rest => registered ++ notified rest registered
  | OnUpdate callback :: rest => notified rest (registered ++ [callback])
  | RemoveUpdateCallback callback :: rest =>
      notified rest (remove_first callback registered)
  | _ :: rest => notified rest registered
  end.

(** A monitor of the 'pro' tier with the given registered callbacks. *)
Definition registered_monitor (callbacks : list Callback) : t :=
  mk (CursorProLimits.mk 0 0 0 0 0) (getQuotasForTier "pro") callbacks.

(** The usage of the documented scenario on the 'pro' tier:
    first 150/300/200/650, then 200/500/450/1150. *)
Definition scenario_first : PartialLimits.t :=
  PartialLimits.mk (Some 150) (Some 300) (Some 200) (Some 650) None.
Definition scenario_second : PartialLimits.t :=
  PartialLimits.mk (Some 200) (Some 500) (Some 450) (Some 1150) None.
Definition scenario_ops (t1 t2 : Date) : list Operation :=
  [UpdateLimits t1 scenario_first; UpdateLimits t2 scenario_second].
Definition scenario (t0 t1 t2 : Date) : t :=
  after (run (scenario_ops t1 t2) (new t0 None)).

Arguments scenario (t0 t1 t2)%_Z.

(** ** Vocabulary of the number format

    The primitive numbers are specified by [Prim2SF], which maps a number
    to its sign, mantissa and exponent, and by the operations of
    [SpecFloat] on these. *)

(** A mantissa and an exponent as the format pairs them. *)
Definition canonical (m : positive) (e : Z) : Prop :=
  fexp prec emax (Z.pos (digits2_pos m) + e)%Z = e.

(** A number, not [NaN], of the given sign. *)
Definition signed (s : bool) (x : spec_float) : Prop :=
  match x with
  | S754_zero s' | S754_infinity s' | S754_finite s' _ _ => s' = s
  | S754_nan => False
  end.

(** A number is positive and finite. *)
Definition positive_finite (x : float) : Prop :=
  exists m e, Prim2SF x = S754_finite false m e.

(** Zero or above: [0 <= x], which excludes [NaN]. *)
Definition at_least_zero (x : spec_float) : Prop :=
  match x with
  | S754_zero _ => True
  | S754_infinity s | S754_finite s _ _ => s = false
  | S754_nan => False
  end.

(** ** Vocabulary of the further properties *)

(** A monitor built by the constructor and driven by any operations. *)
Definition reached (m : t) : Prop :=
  exists now tier ops, m = after (run ops (new now tier)).

(** The names of the three tiers. *)
Definition tier_names : list SubscriptionTier :=
  ["pro"; "pro-plus"; "ultra"]%string.

(** The partial update that supplies what either of two updates supplies,
    with the value of the second where both do. *)
Definition merge_updates (first second : PartialLimits.t) : PartialLimits.t :=
  let later {A : Type} (a b : option A) : option A :=
    match b with Some _ => b | None => a end in
  PartialLimits.mk
    (later (PartialLimits.sonnet45Requests first)
           (PartialLimits.sonnet45Requests second))
    (later (PartialLimits.geminiRequests first)
           (PartialLimits.geminiRequests second))
    (later (PartialLimits.gpt5Requests first)
           (PartialLimits.gpt5Requests second))
    (later (PartialLimits.totalRequests first)
           (PartialLimits.totalRequests second))
    (later (PartialLimits.lastUpdated first)
           (PartialLimits.lastUpdated second)).

(** The partial update that supplies the count of one service only. *)
Definition only (c : ServiceType.t) (v : number) : PartialLimits.t :=
  match c with
  | ServiceType.sonnet45 => PartialLimits.mk (Some v) None None None None
  | ServiceType.gemini => PartialLimits.mk None (Some v) None None None
  | ServiceType.gpt5 => PartialLimits.mk None None (Some v) None None
  | ServiceType.total => PartialLimits.mk None None None (Some v) None
  end.

(** The quotas are a row of the catalogue, under the name of that row. *)
Definition catalog_row (q : CursorProQuotas.t) : Prop :=
  In (CursorProQuotas.tier q) tier_names
  /\ q = getQuotasForTier (CursorProQuotas.tier q).

(** ** Callbacks that throw

    The class has no [throw], [try] or [catch].  What can end one of its
    methods other than by its return is a callback that throws while
    [notifyCallbacks] calls it.  Here the methods that call the callbacks
    are embedded once more, with the way a call ends made explicit.  A
    callback is still known by its identity and still does not call back
    into the monitor; whether it returns or throws is decided by which
    callback it is and by the statistics it is given. *)

Module Throwing.

(** A thrown value, known by its identity. *)
Definition Thrown : Type := nat.

(** What [callback(stats)] does: [None] when it returns, [Some e] when it
    throws [e]. *)
Definition Behaviour : Type := Callback -> UsageStats.t -> option Thrown.

(** How a method ends. *)
Inductive Completion (A : Type) : Type :=
| Returns (a : A)
| Throws (e : Thrown).

Arguments Returns {A} a.
Arguments Throws {A} e.

(** Receiver in; completion, receiver and calls out. *)
Definition Method (A : Type) : Type := t -> Completion A * t * list Call.

Definition ret {A : Type} (a : A) : Method A :=
  fun this => (Returns a, this, []).

(** The statements after a [throw] are not run. *)
Definition bind {A B : Type} (m : Method A) (k : A -> Method B) : Method B :=
  fun this =>
    let o1 := m this in
    match result o1 with
    | Returns a =>
        let o2 := k a (after o1) in
        (result o2, after o2, calls o1 ++ calls o2)
    | Throws e => (Throws e, after o1, calls o1)
    end.

Declare Scope throwing_scope.
Notation "x <- m ;; k" := (bind m (fun x => k))
  (at level 61, m at next level, right associativity) : throwing_scope.
Notation "m ;; k" := (bind m (fun _ => k))
  (at level 61, right associativity) : throwing_scope.
Local Open Scope throwing_scope.

(** A method that calls no callback ends by its return. *)
Definition lift {A : Type} (f : CursorLimitsMonitor.Method A) : Method A :=
  fun this => let o := f this in (Returns (result o), after o, calls o).

Section Callbacks.
Variable behaviour : Behaviour.

(** [callback(stats)] *)
Definition call (callback : Callback) (stats : UsageStats.t) : Method unit :=
  fun this =>
    (match behaviour callback stats with
     | None => Returns tt
     | Some e => Throws e
     end, this, [(callback, stats)]).

(** [array.forEach(f)] *)
Fixpoint forEach {A : Type} (l : list A) (f : A -> Method unit)
  : Method unit :=
  match l with
  | [] => ret tt
  | x :: rest => f x ;; forEach rest f
  end.

(** *** notifyCallbacks *)

Definition notifyCallbacks : Method unit :=
  stats <- lift getUsageStats ;;
  updateCallbacks <- lift (read updateCallbacks) ;;
  forEach updateCallbacks (fun callback => call callback stats).

(** *** updateTier *)

Definition updateTier (tier : SubscriptionTier) : Method unit :=
  lift (set_quotas (getQuotasForTier tier)) ;;
  notifyCallbacks.

(** *** updateLimits *)

Definition updateLimits (now : Date) (newLimits : PartialLimits.t)
  : Method unit :=
  limits <- lift (read limits) ;;
  (let merged := spread limits newLimits in
   lift (set_limits (CursorProLimits.mk
                       (CursorProLimits.sonnet45Requests merged)
                       (CursorProLimits.geminiRequests merged)
                       (CursorProLimits.gpt5Requests merged)
                       (CursorProLimits.totalRequests merged)
                       now))) ;;
  notifyCallbacks.

(** One call of a public method: the two updates as above, the other
    methods, which call no callback, as they are. *)
Definition perform (op : Operation) : Method unit :=
  match op with
  | UpdateLimits now newLimits => updateLimits now newLimits
  | UpdateTier tier => updateTier tier
  | OnUpdate callback => lift (onUpdate callback)
  | RemoveUpdateCallback callback => lift (removeUpdateCallback callback)
  | GetUsageStats => lift getUsageStats ;; ret tt
  | GetServiceUsage service => lift (getServiceUsage service) ;; ret tt
  | CheckAlerts => lift checkAlerts ;; ret tt
  | GetCurrentTier => lift getCurrentTier ;; ret tt
  end.

(** The calls of a notification that are made when the callbacks behave
    as [behaviour] says, up to and including the first that throws, and
    how the notification ends. *)
Fixpoint attempted (notifications : list Call)
  : Completion unit * list Call :=
  match notifications with
  | [] => (Returns tt, [])
  | (callback, stats) :: rest =>
      match behaviour callback stats with
      | Some e => (Throws e, [(callback, stats)])
      | None =>
          (fst (attempted rest), (callback, stats) :: snd (attempted rest))
      end
  end.

End Callbacks.

Arguments updateLimits behaviour now%_Z newLimits _.
Arguments updateTier behaviour tier%_string _.

(** The callback [thrower] throws [e], every other callback returns. *)
Definition only_throws (thrower : Callback) (e : Thrown) : Behaviour :=
  fun callback _ => if Nat.eqb callback thrower then Some e else None.

(** No callback throws. *)
Definition all_return : Behaviour := fun _ _ => None.

End Throwing.

(** * index.ts: the MCP server over the monitor

    Conventions of the embedding.

    - The object of the class [CursorProLimitsMCPServer] is its monitor
      (the SDK's [Server] object only carries the two request handlers);
      the method of a handler is a [Method] of the monitor it works on.
    - A string is the sequence of its UTF-8 bytes.
    - The functions of the JavaScript engine that the handlers call to
      print ([toUpperCase], [trim], the conversion of a number in a
      template literal, [toFixed], [toISOString]) and the messages of the
      engine's [TypeError]s are fields of [Engine.t]: the handlers are
      defined, and the theorems hold, for every engine.
    - A template literal is the concatenation of its lines with a line feed
      between them.
    - [request.params.arguments] is absent or an object; a property of it
      is absent or has the type the handler declares for it.
    - [async] and [await]: a handler runs to its end when it is called, and
      its promise is awaited inside the [try] block of the caller, so a
      [throw] in a handler is an outcome [Thrown] that the caller
      catches. *)

Module Engine.
Record t : Type := mk {
  (** [String.prototype.toUpperCase] *)
  toUpperCase : string -> string;
  (** [String.prototype.trim] *)
  trim : string -> string;
  (** a number inside a template literal *)
  toString : number -> string;
  (** [Number.prototype.toFixed] *)
  toFixed : number -> Z -> string;
  (** [Date.prototype.toISOString] *)
  toISOString : Date -> string;
  (** the message of the [TypeError] of [const { property } = undefined] *)
  destructureUndefined : string -> string;
  (** the message of the [TypeError] of [undefined.property] *)
  readUndefined : string -> string
}.
End Engine.

Module Tool.
(** The entries of the answer to [tools/list]. *)
Record Property : Type := Property_mk {
  property_type : string;
  enum : option (list string);
  property_description : string
}.
Record InputSchema : Type := InputSchema_mk {
  type : string;
  properties : list (string * Property);
  required : option (list string)
}.
Record t : Type := mk {
  name : string;
  description : string;
  inputSchema : InputSchema
}.
End Tool.

Module Content.
Record t : Type := mk {
  type : string;
  text : string
}.
End Content.

Module Response.
(** [{ content, isError? }] *)
Record t : Type := mk {
  content : list Content.t;
  isError : option bool
}.
End Response.

Module ToolArguments.
(** [request.params.arguments], with the properties the handlers read. *)
Record t : Type := mk {
  service : option string;
  tier : option string;
  sonnet45Requests : option number;
  geminiRequests : option number;
  gpt5Requests : option number;
  totalRequests : option number
}.
End ToolArguments.

Module Request.
(** [request.params] of a [tools/call] request. *)
Record t : Type := mk {
  name : string;
  arguments : option ToolArguments.t
}.
End Request.

Module Server.
Local Open Scope string_scope.

(** What a [throw] throws: an [Error] object with its message (also the
    engine's [TypeError]), or a value that is no [Error] object. *)
Inductive Exception : Type :=
| Error (message : string)
| NotAnError.

(** How an [async] function ends. *)
Inductive Outcome (A : Type) : Type :=
| Returned (a : A)
| Thrown (e : Exception).

Arguments Returned {A} a.
Arguments Thrown {A} e.

Definition Async (A : Type) : Type := Method (Outcome A).

(** [return a] and [throw e] at the end of an [async] function *)
Definition resolve {A : Type} (a : A) : Async A := ret (Returned a).
Definition throw {A : Type} (e : Exception) : Async A := ret (Thrown e).

(** [try { return await body } catch (error) { return handler(error) }] *)
Definition try_catch {A : Type} (body : Async A)
           (handler : Exception -> Method A) : Method A :=
  outcome <- body ;;
  match outcome with
  | Returned a => ret a
  | Thrown error => handler error
  end.

(** The line feed, and [lines.join('\n')]. *)
Definition newline : string := String (Ascii.ascii_of_nat 10) EmptyString.
Definition join (lines : list string) : string := String.concat newline lines.

(** [array.includes(s)] on an array of strings *)
Definition includes (array : list string) (s : string) : bool :=
  existsb (String.eqb s) array.

(** The string of a service token, and the cast
    [service as 'sonnet45' | 'gemini' | 'gpt5' | 'total'] of a string that
    [includes] has found among the four (anything else has no counterpart
    in [ServiceType.t]; the cast is total by sending it to the last). *)
Definition token (service : ServiceType.t) : string :=
  match service with
  | ServiceType.sonnet45 => "sonnet45"
  | ServiceType.gemini => "gemini"
  | ServiceType.gpt5 => "gpt5"
  | ServiceType.total => "total"
  end.

Definition as_service (service : string) : ServiceType.t :=
  if service =? "sonnet45" then ServiceType.sonnet45
  else if service =? "gemini" then ServiceType.gemini
  else if service =? "gpt5" then ServiceType.gpt5
  else ServiceType.total.

(** [{ content: [{ type: 'text', text }] }] *)
Definition text_content (text : string) : Response.t :=
  Response.mk [Content.mk "text" text] None.

(** [updates.property = v] on a partial update *)
Definition set_sonnet45Requests (v : number) (updates : PartialLimits.t)
  : PartialLimits.t :=
  PartialLimits.mk (Some v) (PartialLimits.geminiRequests updates)
    (PartialLimits.gpt5Requests updates)
    (PartialLimits.totalRequests updates) (PartialLimits.lastUpdated updates).
Definition set_geminiRequests (v : number) (updates : PartialLimits.t)
  : PartialLimits.t :=
  PartialLimits.mk (PartialLimits.sonnet45Requests updates) (Some v)
    (PartialLimits.gpt5Requests updates)
    (PartialLimits.totalRequests updates) (PartialLimits.lastUpdated updates).
Definition set_gpt5Requests (v : number) (updates : PartialLimits.t)
  : PartialLimits.t :=
  PartialLimits.mk (PartialLimits.sonnet45Requests updates)
    (PartialLimits.geminiRequests updates) (Some v)
    (PartialLimits.totalRequests updates) (PartialLimits.lastUpdated updates).
Definition set_totalRequests (v : number) (updates : PartialLimits.t)
  : PartialLimits.t :=
  PartialLimits.mk (PartialLimits.sonnet45Requests updates)
    (PartialLimits.geminiRequests updates)
    (PartialLimits.gpt5Requests updates) (Some v)
    (PartialLimits.lastUpdated updates).

(** *** The handler of [tools/list] *)

Definition listTools : list Tool.t :=
  [ Tool.mk "get_usage_stats"
      "Get current Cursor Pro usage statistics and limits"
      (Tool.InputSchema_mk "object"
         []
         None);
    Tool.mk "get_service_usage"
      "Get usage statistics for a specific service"
      (Tool.InputSchema_mk "object"
         [("service",
           Tool.Property_mk "string" (Some ["sonnet45"; "gemini"; "gpt5"; "total"])
             "Service to check usage for")]
         (Some ["service"]));
    Tool.mk "check_alerts"
      "Check for services approaching or exceeding limits"
      (Tool.InputSchema_mk "object"
         []
         None);
    Tool.mk "update_usage"
      "Update usage statistics (for testing or manual updates)"
      (Tool.InputSchema_mk "object"
         [("sonnet45Requests",
           Tool.Property_mk "number" None
             "Number of Sonnet 4.5 requests");
          ("geminiRequests",
           Tool.Property_mk "number" None
             "Number of Gemini requests");
          ("gpt5Requests",
           Tool.Property_mk "number" None
             "Number of GPT-5 requests");
          ("totalRequests",
           Tool.Property_mk "number" None
             "Total number of requests")]
         None);
    Tool.mk "set_subscription_tier"
      "Set the subscription tier (pro, pro-plus, ultra)"
      (Tool.InputSchema_mk "object"
         [("tier",
           Tool.Property_mk "string" (Some ["pro"; "pro-plus"; "ultra"])
             "Subscription tier")]
         (Some ["tier"]));
    Tool.mk "get_subscription_info"
      "Get current subscription tier and limits"
      (Tool.InputSchema_mk "object"
         []
         None) ].

(** *** constructor: [this.monitor = new CursorLimitsMonitor()] *)

Definition new (now : Date) : CursorLimitsMonitor.t :=
  CursorLimitsMonitor.new now None.

Section Handlers.
Variable engine : Engine.t.

Local Abbreviation toUpperCase := (Engine.toUpperCase engine).
Local Abbreviation trim := (Engine.trim engine).
Local Abbreviation toString := (Engine.toString engine).
Local Abbreviation toFixed := (Engine.toFixed engine).
Local Abbreviation toISOString := (Engine.toISOString engine).

(** *** handleGetUsageStats *)

Definition handleGetUsageStats : Async Response.t :=
  stats <- getUsageStats ;;
  let content :=
    trim
      (join
         [EmptyString;
          "# Cursor Pro Usage Statistics";
          EmptyString;
          "## Subscription Tier: "
            ++ toUpperCase (CursorProQuotas.tier (UsageStats.quotas stats));
          EmptyString;
          "## Current Usage (Monthly)";
          "- **Sonnet 4.5**: "
            ++ toString (CursorProLimits.sonnet45Requests (UsageStats.limits stats))
            ++ "/"
            ++ toString (CursorProQuotas.maxSonnet45Requests (UsageStats.quotas stats))
            ++ " ("
            ++ toFixed (PerService.sonnet45 (UsageStats.usagePercentages stats)) 1
            ++ "%)";
          "- **Gemini**: "
            ++ toString (CursorProLimits.geminiRequests (UsageStats.limits stats))
            ++ "/"
            ++ toString (CursorProQuotas.maxGeminiRequests (UsageStats.quotas stats))
            ++ " ("
            ++ toFixed (PerService.gemini (UsageStats.usagePercentages stats)) 1
            ++ "%)";
          "- **GPT-5**: "
            ++ toString (CursorProLimits.gpt5Requests (UsageStats.limits stats))
            ++ "/"
            ++ toString (CursorProQuotas.maxGpt5Requests (UsageStats.quotas stats))
            ++ " ("
            ++ toFixed (PerService.gpt5 (UsageStats.usagePercentages stats)) 1
            ++ "%)";
          "- **Total**: "
            ++ toString (CursorProLimits.totalRequests (UsageStats.limits stats))
            ++ "/"
            ++ toString (CursorProQuotas.maxTotalRequests (UsageStats.quotas stats))
            ++ " ("
            ++ toFixed (PerService.total (UsageStats.usagePercentages stats)) 1
            ++ "%)";
          EmptyString;
          "## Remaining Requests (This Month)";
          "- **Sonnet 4.5**: "
            ++ toString (PerService.sonnet45 (UsageStats.remaining stats));
          "- **Gemini**: "
            ++ toString (PerService.gemini (UsageStats.remaining stats));
          "- **GPT-5**: "
            ++ toString (PerService.gpt5 (UsageStats.remaining stats));
          "- **Total**: "
            ++ toString (PerService.total (UsageStats.remaining stats));
          EmptyString;
          "## Last Updated";
          toISOString (CursorProLimits.lastUpdated (UsageStats.limits stats));
          "    "]) in
  resolve (text_content content).

(** *** handleGetServiceUsage *)

Definition handleGetServiceUsage (args : option ToolArguments.t)
  : Async Response.t :=
  match args with
  | None => throw (Error (Engine.destructureUndefined engine "service"))
  | Some args =>
      match ToolArguments.service args with
      | None =>
          (* [includes(undefined)] is false *)
          throw
            (Error
               "Invalid service. Must be one of: sonnet45, gemini, gpt5, total")
      | Some service =>
          if negb (includes ["sonnet45"; "gemini"; "gpt5"; "total"] service)
          then
            throw
              (Error
                 "Invalid service. Must be one of: sonnet45, gemini, gpt5, total")
          else
            usage <- getServiceUsage (as_service service) ;;
            let status :=
              if ServiceUsage.isCritical usage then "ðŸ”´ CRITICAL"
              else if ServiceUsage.isWarning usage then "ðŸŸ¡ WARNING"
              else "ðŸŸ¢ OK" in
            let content :=
              trim
                (join
                   [EmptyString;
                    "# " ++ toUpperCase service ++ " Service Usage";
                    EmptyString;
                    "## Status: " ++ status;
                    EmptyString;
                    "- **Current**: "
                      ++ toString (ServiceUsage.current usage);
                    "- **Maximum**: " ++ toString (ServiceUsage.max usage);
                    "- **Percentage**: "
                      ++ toFixed (ServiceUsage.percentage usage) 1 ++ "%";
                    "- **Remaining**: "
                      ++ toString (ServiceUsage.remaining usage);
                    EmptyString;
                    (if ServiceUsage.isCritical usage then "âš ï¸ This service is at or near its limit!" else EmptyString);
                    (if ServiceUsage.isWarning usage then "âš ï¸ This service is approaching its limit." else EmptyString);
                    "    "]) in
            resolve (text_content content)
      end
  end.

(** *** handleCheckAlerts *)

Definition handleCheckAlerts : Async Response.t :=
  alerts <- checkAlerts ;;
  if Nat.eqb (List.length alerts) 0 then
    resolve
      (text_content
         "âœ… No alerts - all services are within normal limits.")
  else
    let alertContent :=
      join
        (map (fun alert =>
                let status :=
                  if ServiceUsage.isCritical alert then "ðŸ”´ CRITICAL"
                  else "ðŸŸ¡ WARNING" in
                "- **" ++ toUpperCase (token (ServiceUsage.service alert))
                  ++ "**: " ++ status ++ " ("
                  ++ toFixed (ServiceUsage.percentage alert) 1 ++ "% used)")
             alerts) in
    let details :=
      join
        (map (fun alert =>
                trim
                  (join
                     [EmptyString;
                      "### "
                        ++ toUpperCase (token (ServiceUsage.service alert));
                      "- Current: " ++ toString (ServiceUsage.current alert)
                        ++ "/" ++ toString (ServiceUsage.max alert);
                      "- Percentage: "
                        ++ toFixed (ServiceUsage.percentage alert) 1 ++ "%";
                      "- Remaining: "
                        ++ toString (ServiceUsage.remaining alert);
                      "- Status: "
                        ++ (if ServiceUsage.isCritical alert then "CRITICAL" else "WARNING");
                      "    "]))
             alerts) in
    let content :=
      trim
        (join
           [EmptyString;
            "# Alert Summary";
            EmptyString;
            alertContent;
            EmptyString;
            "## Details";
            details;
            "    "]) in
    resolve (text_content content).

(** *** handleUpdateUsage *)

Definition handleUpdateUsage (now : Date) (args : option ToolArguments.t)
  : Async Response.t :=
  match args with
  | None => throw (Error (Engine.readUndefined engine "sonnet45Requests"))
  | Some args =>
      let updates := PartialLimits.mk None None None None None in
      let updates :=
        match ToolArguments.sonnet45Requests args with
        | Some v => set_sonnet45Requests v updates
        | None => updates
        end in
      let updates :=
        match ToolArguments.geminiRequests args with
        | Some v => set_geminiRequests v updates
        | None => updates
        end in
      let updates :=
        match ToolArguments.gpt5Requests args with
        | Some v => set_gpt5Requests v updates
        | None => updates
        end in
      let updates :=
        match ToolArguments.totalRequests args with
        | Some v => set_totalRequests v updates
        | None => updates
        end in
      updateLimits now updates ;;
      resolve
        (text_content "âœ… Usage statistics updated successfully.")
  end.

(** *** handleSetSubscriptionTier *)

Definition handleSetSubscriptionTier (args : option ToolArguments.t)
  : Async Response.t :=
  match args with
  | None => throw (Error (Engine.destructureUndefined engine "tier"))
  | Some args =>
      match ToolArguments.tier args with
      | None =>
          (* [includes(undefined)] is false *)
          throw
            (Error "Invalid tier. Must be one of: pro, pro-plus, ultra")
      | Some tier =>
          if negb (includes ["pro"; "pro-plus"; "ultra"] tier)
          then
            throw
              (Error "Invalid tier. Must be one of: pro, pro-plus, ultra")
          else
            updateTier tier ;;
            stats <- getUsageStats ;;
            let content :=
              trim
                (join
                   [EmptyString;
                    "# Subscription Tier Updated";
                    EmptyString;
                    "## New Tier: " ++ toUpperCase tier;
                    EmptyString;
                    "## Monthly Limits";
                    "- **Sonnet 4.5**: "
                      ++ toString (CursorProQuotas.maxSonnet45Requests (UsageStats.quotas stats))
                      ++ " requests/month";
                    "- **Gemini**: "
                      ++ toString (CursorProQuotas.maxGeminiRequests (UsageStats.quotas stats))
                      ++ " requests/month";
                    "- **GPT-5**: "
                      ++ toString (CursorProQuotas.maxGpt5Requests (UsageStats.quotas stats))
                      ++ " requests/month";
                    "- **Total**: "
                      ++ toString (CursorProQuotas.maxTotalRequests (UsageStats.quotas stats))
                      ++ " requests/month";
                    EmptyString;
                    "## Current Usage";
                    "- **Sonnet 4.5**: "
                      ++ toString (CursorProLimits.sonnet45Requests (UsageStats.limits stats))
                      ++ "/"
                      ++ toString (CursorProQuotas.maxSonnet45Requests (UsageStats.quotas stats))
                      ++ " ("
                      ++ toFixed (PerService.sonnet45 (UsageStats.usagePercentages stats)) 1
                      ++ "%)";
                    "- **Gemini**: "
                      ++ toString (CursorProLimits.geminiRequests (UsageStats.limits stats))
                      ++ "/"
                      ++ toString (CursorProQuotas.maxGeminiRequests (UsageStats.quotas stats))
                      ++ " ("
                      ++ toFixed (PerService.gemini (UsageStats.usagePercentages stats)) 1
                      ++ "%)";
                    "- **GPT-5**: "
                      ++ toString (CursorProLimits.gpt5Requests (UsageStats.limits stats))
                      ++ "/"
                      ++ toString (CursorProQuotas.maxGpt5Requests (UsageStats.quotas stats))
                      ++ " ("
                      ++ toFixed (PerService.gpt5 (UsageStats.usagePercentages stats)) 1
                      ++ "%)";
                    "- **Total**: "
                      ++ toString (CursorProLimits.totalRequests (UsageStats.limits stats))
                      ++ "/"
                      ++ toString (CursorProQuotas.maxTotalRequests (UsageStats.quotas stats))
                      ++ " ("
                      ++ toFixed (PerService.total (UsageStats.usagePercentages stats)) 1
                      ++ "%)";
                    "    "]) in
            resolve (text_content content)
      end
  end.

(** *** handleGetSubscriptionInfo *)

Definition handleGetSubscriptionInfo : Async Response.t :=
  tier <- getCurrentTier ;;
  stats <- getUsageStats ;;
  let content :=
    trim
      (join
         [EmptyString;
          "# Subscription Information";
          EmptyString;
          "## Current Tier: " ++ toUpperCase tier;
          EmptyString;
          "## Monthly Limits";
          "- **Sonnet 4.5**: "
            ++ toString (CursorProQuotas.maxSonnet45Requests (UsageStats.quotas stats))
            ++ " requests/month";
          "- **Gemini**: "
            ++ toString (CursorProQuotas.maxGeminiRequests (UsageStats.quotas stats))
            ++ " requests/month";
          "- **GPT-5**: "
            ++ toString (CursorProQuotas.maxGpt5Requests (UsageStats.quotas stats))
            ++ " requests/month";
          "- **Total**: "
            ++ toString (CursorProQuotas.maxTotalRequests (UsageStats.quotas stats))
            ++ " requests/month";
          EmptyString;
          "## Current Usage";
          "- **Sonnet 4.5**: "
            ++ toString (CursorProLimits.sonnet45Requests (UsageStats.limits stats))
            ++ "/"
            ++ toString (CursorProQuotas.maxSonnet45Requests (UsageStats.quotas stats))
            ++ " ("
            ++ toFixed (PerService.sonnet45 (UsageStats.usagePercentages stats)) 1
            ++ "%)";
          "- **Gemini**: "
            ++ toString (CursorProLimits.geminiRequests (UsageStats.limits stats))
            ++ "/"
            ++ toString (CursorProQuotas.maxGeminiRequests (UsageStats.quotas stats))
            ++ " ("
            ++ toFixed (PerService.gemini (UsageStats.usagePercentages stats)) 1
            ++ "%)";
          "- **GPT-5**: "
            ++ toString (CursorProLimits.gpt5Requests (UsageStats.limits stats))
            ++ "/"
            ++ toString (CursorProQuotas.maxGpt5Requests (UsageStats.quotas stats))
            ++ " ("
            ++ toFixed (PerService.gpt5 (UsageStats.usagePercentages stats)) 1
            ++ "%)";
          "- **Total**: "
            ++ toString (CursorProLimits.totalRequests (UsageStats.limits stats))
            ++ "/"
            ++ toString (CursorProQuotas.maxTotalRequests (UsageStats.quotas stats))
            ++ " ("
            ++ toFixed (PerService.total (UsageStats.usagePercentages stats)) 1
            ++ "%)";
          EmptyString;
          "## Available Tiers";
          "- **Pro**: 225 Sonnet 4.5, 550 Gemini, 500 GPT-5 (1,275 total)";
          "- **Pro+**: 675 Sonnet 4.5, 1,650 Gemini, 1,500 GPT-5 (3,825 total)";
          "- **Ultra**: 4,500 Sonnet 4.5, 11,000 Gemini, 10,000 GPT-5 (25,500 total)";
          "    "]) in
  resolve (text_content content).

(** *** The handler of [tools/call] *)

Definition callTool (now : Date) (request : Request.t) : Method Response.t :=
  let name := Request.name request in
  let args := Request.arguments request in
  try_catch
    (if name =? "get_usage_stats" then handleGetUsageStats
     else if name =? "get_service_usage" then handleGetServiceUsage args
     else if name =? "check_alerts" then handleCheckAlerts
     else if name =? "update_usage" then handleUpdateUsage now args
     else if name =? "set_subscription_tier" then
       handleSetSubscriptionTier args
     else if name =? "get_subscription_info" then handleGetSubscriptionInfo
     else throw (Error ("Unknown tool: " ++ name)))
    (fun error =>
       let errorMessage :=
         match error with
         | Error message => message
         | NotAnError => "Unknown error"
         end in
       ret (Response.mk [Content.mk "text" ("Error: " ++ errorMessage)]
                        (Some true))).

(** Requests handled one after the other, each at its own time. *)
Definition serve (requests : list (Date * Request.t))
  : Method (list Response.t) :=
  mapM (fun request => callTool (fst request) (snd request)) requests.

End Handlers.

Arguments new now%_Z.
Arguments handleUpdateUsage engine now%_Z args.
Arguments callTool engine now%_Z request.

(** A stand-in for the engine in the examples: it leaves a string as it
    is and prints every number and date as a fixed sign.  The theorems hold
    for every engine. *)
Definition sample_engine : Engine.t :=
  Engine.mk (fun s => s) (fun s => s) (fun _ => "#") (fun _ _ => "#.#")
    (fun _ => "<date>")
    (fun property =>
       "Cannot destructure property '" ++ property ++ "' of undefined")
    (fun property =>
       "Cannot read properties of undefined (reading '" ++ property ++ "')").

(** The values the tool list allows for a property of a tool. *)
Definition enum_of (tool property : string) : list string :=
  match find (fun t => Tool.name t =? tool) listTools with
  | Some t =>
      match find (fun p => fst p =? property)
                 (Tool.properties (Tool.inputSchema t)) with
      | Some p =>
          match Tool.enum (snd p) with Some values => values | None => [] end
      | None => []
      end
  | None => []
  end.

(** The arguments object with no property, and with one. *)
Definition no_arguments : ToolArguments.t :=
  ToolArguments.mk None None None None None None.
Definition service_argument (service : string) : ToolArguments.t :=
  ToolArguments.mk (Some service) None None None None None.
Definition tier_argument (tier : string) : ToolArguments.t :=
  ToolArguments.mk None (Some tier) None None None None.

(** The partial update of the counts that the arguments supply. *)
Definition supplied_counts (args : ToolArguments.t) : PartialLimits.t :=
  PartialLimits.mk (ToolArguments.sonnet45Requests args)
    (ToolArguments.geminiRequests args) (ToolArguments.gpt5Requests args)
    (ToolArguments.totalRequests args) None.

(** The answer of the [catch] block for an [Error] with a message. *)
Definition error_response (message : string) : Response.t :=
  Response.mk [Content.mk "text" ("Error: " ++ message)] (Some true).

(** The operation of the monitor that a request amounts to, if any. *)
Definition operation_of (now : Date) (request : Request.t)
  : option Operation :=
  match Request.arguments request with
  | None => None
  | Some args =>
      if Request.name request =? "update_usage" then
        Some (UpdateLimits now (supplied_counts args))
      else if Request.name request =? "set_subscription_tier" then
        match ToolArguments.tier args with
        | Some tier =>
            if includes ["pro"; "pro-plus"; "ultra"] tier
            then Some (UpdateTier tier) else None
        | None => None
        end
      else None
  end.

(** No request supplies a negative count (or [NaN]). *)
Definition counts_supplied_nonnegative (request : Request.t) : Prop :=
  match Request.arguments request with
  | None => True
  | Some args =>
      forall c v, supplied (supplied_counts args) c = Some v ->
                  (0 <=? v)%float = true
  end.

Arguments operation_of now%_Z request.
End Server.

(** ** Facts about binary64 arithmetic *)

Module Binary64.

Local Open Scope Z_scope.

Lemma fexp_unfold (e : Z) : fexp prec emax e = Z.max (e - 53) (-1074).
Proof. reflexivity. Qed.

Lemma digits2_pos_size (p : positive) : digits2_pos p = Pos.size p.
Proof. induction p as [p IH|p IH|]; cbn; now rewrite ?IH. Qed.

Lemma Zdigits2_log2 (m : Z) : 0 < m -> Zdigits2 m = Z.log2 m + 1.
Proof.
  destruct m as [|p|p]; try lia. intros _. cbn [Zdigits2].
  rewrite digits2_pos_size. destruct p; cbn; lia.
Qed.

(** A positive number of [d] binary digits lies in [2^(d-1), 2^d). *)
Lemma Zdigits2_bounds (m : Z) :
  0 < m -> 2 ^ (Zdigits2 m - 1) <= m < 2 ^ Zdigits2 m.
Proof.
  intros Hm. rewrite Zdigits2_log2 by exact Hm.
  replace (Z.log2 m + 1 - 1) with (Z.log2 m) by lia.
  apply Z.log2_spec. exact Hm.
Qed.

Lemma Zdigits2_shiftr (m n : Z) :
  0 <= m -> 0 <= n -> Zdigits2 (Z.shiftr m n) = Z.max 0 (Zdigits2 m - n).
Proof.
  intros Hm Hn. destruct (Z.eq_dec m 0) as [-> | Hne].
  - rewrite Z.shiftr_0_l. cbn. lia.
  - assert (Hpos : 0 < m) by lia.
    destruct (Z_lt_le_dec (Z.log2 m) n) as [Hlt | Hle].
    + rewrite Z.shiftr_eq_0 by lia. rewrite (Zdigits2_log2 m Hpos). cbn. lia.
    + assert (0 < Z.shiftr m n).
      { rewrite Z.shiftr_div_pow2 by exact Hn.
        apply Z.div_str_pos. split; [apply Z.pow_pos_nonneg; lia|].
        apply Z.log2_le_pow2; assumption. }
      rewrite !Zdigits2_log2 by assumption.
      rewrite Z.log2_shiftr by exact Hpos. lia.
Qed.

Lemma Zdigits2_mul_pow2 (m k : Z) :
  0 < m -> 0 <= k -> Zdigits2 (m * 2 ^ k) = Zdigits2 m + k.
Proof.
  intros Hm Hk.
  assert (0 < m * 2 ^ k) by (apply Z.mul_pos_pos; [lia | apply Z.pow_pos_nonneg; lia]).
  rewrite !Zdigits2_log2 by assumption.
  rewrite Z.log2_mul_pow2 by lia. lia.
Qed.

Lemma Zdigits2_le (a b : Z) : 0 < a -> a <= b -> Zdigits2 a <= Zdigits2 b.
Proof.
  intros Ha Hab. rewrite !Zdigits2_log2 by lia.
  pose proof (Z.log2_le_mono a b Hab). lia.
Qed.

(** ** Shifting to the right *)

Lemma shr_1_m (mrs : shr_record) :
  0 <= shr_m mrs -> shr_m (shr_1 mrs) = Z.shiftr (shr_m mrs) 1.
Proof.
  destruct mrs as [m r s]. cbn [shr_m]. intros Hm.
  rewrite <- Z.div2_spec.
  destruct m as [|[p|p|]|p]; try lia; reflexivity.
Qed.

Lemma iter_pos_shr_1_m (p : positive) (mrs : shr_record) :
  0 <= shr_m mrs ->
  shr_m (iter_pos shr_1 p mrs) = Z.shiftr (shr_m mrs) (Z.pos p).
Proof.
  revert mrs. induction p as [p IH|p IH|]; intros mrs Hm; cbn [iter_pos].
  - assert (H1 : 0 <= shr_m (shr_1 mrs))
      by (rewrite shr_1_m by exact Hm; now apply Z.shiftr_nonneg).
    assert (H2 : 0 <= shr_m (iter_pos shr_1 p (shr_1 mrs)))
      by (rewrite IH by exact H1; now apply Z.shiftr_nonneg).
    rewrite IH by exact H2. rewrite IH by exact H1.
    rewrite shr_1_m by exact Hm.
    rewrite !Z.shiftr_shiftr by lia. f_equal. lia.
  - assert (H1 : 0 <= shr_m (iter_pos shr_1 p mrs))
      by (rewrite IH by exact Hm; now apply Z.shiftr_nonneg).
    rewrite IH by exact H1. rewrite IH by exact Hm.
    rewrite Z.shiftr_shiftr by lia. f_equal. lia.
  - now apply shr_1_m.
Qed.

Lemma shr_spec (mrs : shr_record) (e n : Z) :
  0 <= shr_m mrs ->
  shr_m (fst (shr mrs e n)) = Z.shiftr (shr_m mrs) (Z.max n 0)
  /\ snd (shr mrs e n) = e + Z.max n 0.
Proof.
  intros Hm. destruct n as [|p|p]; cbn [shr fst snd].
  - rewrite Z.shiftr_0_r. split; [reflexivity | lia].
  - rewrite iter_pos_shr_1_m by exact Hm.
    replace (Z.max (Z.pos p) 0) with (Z.pos p) by lia. split; reflexivity.
  - replace (Z.max (Z.neg p) 0) with 0 by lia.
    rewrite Z.shiftr_0_r. split; [reflexivity | lia].
Qed.

Lemma shr_record_of_loc_m (m : Z) (l : location) :
  shr_m (shr_record_of_loc m l) = m.
Proof. destruct l as [|[]]; reflexivity. Qed.

(** [shr_fexp m e l] drops the [n] low bits that do not fit the format. *)
Lemma shr_fexp_spec (m e : Z) (l : location) :
  0 <= m ->
  let n := Z.max (fexp prec emax (Zdigits2 m + e) - e) 0 in
  shr_m (fst (shr_fexp prec emax m e l)) = Z.shiftr m n
  /\ snd (shr_fexp prec emax m e l) = e + n
  /\ fexp prec emax (Zdigits2 (Z.shiftr m n) + (e + n)) <= e + n.
Proof.
  intros Hm n. unfold shr_fexp.
  destruct (shr_spec (shr_record_of_loc m l) e
              (fexp prec emax (Zdigits2 m + e) - e)) as [H1 H2].
  { now rewrite shr_record_of_loc_m. }
  rewrite shr_record_of_loc_m in H1. fold n in H1, H2.
  split; [exact H1 | split; [exact H2|]].
  rewrite Zdigits2_shiftr by lia.
  subst n. rewrite !fexp_unfold. lia.
Qed.

Lemma round_nearest_even_ge (m : Z) (l : location) :
  m <= round_nearest_even m l.
Proof.
  destruct l as [|[]]; cbn [round_nearest_even]; try lia.
  destruct (Z.even m); lia.
Qed.


(** ** Rounding to nearest never goes below a number of the format *)

Lemma shiftr_lower_bound (a b k n : Z) :
  0 <= n <= k -> b * 2 ^ k <= a -> b * 2 ^ (k - n) <= Z.shiftr a n.
Proof.
  intros Hn Hab. rewrite Z.shiftr_div_pow2 by lia.
  apply Z.div_le_lower_bound; [apply Z.pow_pos_nonneg; lia|].
  replace (2 ^ n * (b * 2 ^ (k - n))) with (b * (2 ^ (k - n) * 2 ^ n)) by ring.
  rewrite <- Z.pow_add_r by lia. now replace (k - n + n) with k by lia.
Qed.

(** Above the smallest exponent a shift never loses a whole number. *)
Lemma shr_fexp_positive (m e : Z) :
  0 <= m ->
  let n := Z.max (fexp prec emax (Zdigits2 m + e) - e) 0 in
  -1074 < e + n -> Z.shiftr m n = 0 -> m = 0.
Proof.
  intros Hm n He Hz. destruct (Z.eq_dec m 0) as [E | Hne]; [exact E | exfalso].
  assert (Hd : Zdigits2 (Z.shiftr m n) = Z.max 0 (Zdigits2 m - n))
    by (apply Zdigits2_shiftr; lia).
  rewrite Hz in Hd. cbn [Zdigits2] in Hd.
  assert (0 < Zdigits2 m) by (rewrite Zdigits2_log2 by lia; pose proof (Z.log2_nonneg m); lia).
  subst n. rewrite fexp_unfold in *. lia.
Qed.

Lemma binary_round_aux_ge (m e : Z) (l : location) (mt : positive) (et : Z) :
  0 < m ->
  canonical mt et ->
  (e <= et -> Z.pos mt * 2 ^ (et - e) <= m) ->
  SFleb (S754_finite false mt et) (binary_round_aux prec emax false m e l)
  = true.
Proof.
  intros Hm Hcan Hval. unfold canonical in Hcan. rewrite fexp_unfold in Hcan.
  unfold binary_round_aux.
  pose proof (shr_fexp_spec m e l ltac:(lia)) as H1. cbv zeta in H1.
  pose proof (shr_fexp_positive m e ltac:(lia)) as P1. cbv zeta in P1.
  remember (Z.max (fexp prec emax (Zdigits2 m + e) - e) 0) as n1 eqn:En1.
  destruct (shr_fexp prec emax m e l) as [mrs1 e1]. cbn [fst snd] in H1.
  destruct H1 as (Hm1 & He1 & _).
  remember (round_nearest_even (shr_m mrs1) (loc_of_shr_record mrs1))
    as m1 eqn:Em1.
  assert (Hm1' : Z.shiftr m n1 <= m1)
    by (rewrite <- Hm1, Em1; apply round_nearest_even_ge).
  assert (Hs1 : 0 <= Z.shiftr m n1) by (apply Z.shiftr_nonneg; lia).
  pose proof (shr_fexp_spec m1 e1 loc_Exact ltac:(lia)) as H2. cbv zeta in H2.
  pose proof (shr_fexp_positive m1 e1 ltac:(lia)) as P2. cbv zeta in P2.
  remember (Z.max (fexp prec emax (Zdigits2 m1 + e1) - e1) 0) as n2 eqn:En2.
  destruct (shr_fexp prec emax m1 e1 loc_Exact) as [mrs2 e2]. cbn [fst snd] in H2.
  destruct H2 as (Hm2 & He2 & Hr2).
  rewrite <- Hm2, <- He2 in Hr2. rewrite fexp_unfold in Hr2, En1, En2.
  assert (Hs2 : 0 <= shr_m mrs2)
    by (rewrite Hm2; apply Z.shiftr_nonneg; lia).
  assert (Hn1 : 0 <= n1) by lia.
  assert (Hn2 : 0 <= n2) by lia.
  destruct (Z_le_gt_dec e2 et) as [Hle | Hgt].
  - (* the result is on the grid of the bound *)
    assert (Hb1 : Z.pos mt * 2 ^ (et - e - n1) <= Z.shiftr m n1)
      by (apply shiftr_lower_bound; [lia | apply Hval; lia]).
    assert (Hb2 : Z.pos mt * 2 ^ (et - e - n1 - n2) <= shr_m mrs2).
    { rewrite Hm2. apply shiftr_lower_bound; [lia|].
      etransitivity; [exact Hb1 | exact Hm1']. }
    replace (et - e - n1 - n2) with (et - e2) in Hb2 by lia.
    assert (Hp : 0 < Z.pos mt * 2 ^ (et - e2))
      by (apply Z.mul_pos_pos; [lia | apply Z.pow_pos_nonneg; lia]).
    pose proof (Zdigits2_le _ _ Hp Hb2) as Hd.
    rewrite Zdigits2_mul_pow2 in Hd by lia. cbn [Zdigits2] in Hd.
    assert (Heq : e2 = et) by lia.
    rewrite Heq in Hb2 |- *. clear Hr2.
    rewrite Z.sub_diag, Z.pow_0_r, Z.mul_1_r in Hb2.
    destruct (shr_m mrs2) as [|p2|p2]; try lia.
    destruct (et <=? emax - prec); unfold SFleb, SFcompare;
      [|reflexivity].
    rewrite Z.compare_refl.
    change (Pos.compare_cont Eq mt p2) with (Pos.compare mt p2).
    destruct (Pos.compare_spec mt p2); try reflexivity. lia.
  - (* the result has a larger exponent than the bound *)
    assert (Hpos : 0 < shr_m mrs2).
    { destruct (Z.eq_dec (shr_m mrs2) 0) as [Hz | Hnz]; [exfalso | lia].
      rewrite Hm2 in Hz.
      assert (m1 = 0) by (apply P2; [lia | exact Hz]).
      assert (n2 = 0).
      { replace m1 with 0 in En2 by lia. cbn [Zdigits2] in En2. lia. }
      assert (Z.shiftr m n1 = 0) by lia.
      assert (m = 0) by (apply P1; [lia | assumption]). lia. }
    destruct (shr_m mrs2) as [|p2|p2]; try lia.
    destruct (e2 <=? emax - prec); unfold SFleb, SFcompare;
      [|reflexivity].
    destruct (Z.compare_spec et e2); (lia || reflexivity).
Qed.

Lemma binary_round_aux_signed (s : bool) (m e : Z) (l : location) :
  0 <= m -> signed s (binary_round_aux prec emax s m e l).
Proof.
  intros Hm. unfold binary_round_aux.
  pose proof (shr_fexp_spec m e l Hm) as H1. cbv zeta in H1.
  destruct (shr_fexp prec emax m e l) as [mrs1 e1]. cbn [fst snd] in H1.
  destruct H1 as (Hm1 & _ & _).
  set (m1 := round_nearest_even (shr_m mrs1) (loc_of_shr_record mrs1)).
  assert (H0 : 0 <= m1).
  { etransitivity; [|apply round_nearest_even_ge].
    rewrite Hm1. now apply Z.shiftr_nonneg. }
  pose proof (shr_fexp_spec m1 e1 loc_Exact H0) as H2. cbv zeta in H2.
  destruct (shr_fexp prec emax m1 e1 loc_Exact) as [mrs2 e2]. cbn [fst snd] in H2.
  destruct H2 as (Hm2 & _ & _).
  assert (0 <= shr_m mrs2) by (rewrite Hm2; now apply Z.shiftr_nonneg).
  destruct (shr_m mrs2) as [|p2|p2]; try lia; [reflexivity|].
  destruct (e2 <=? emax - prec); reflexivity.
Qed.


(** ** Order of the numbers of the format *)

Lemma bounded_canonical (m : positive) (e : Z) :
  bounded prec emax m e = true -> canonical m e.
Proof.
  unfold bounded, canonical_mantissa, canonical. intros H.
  apply andb_prop in H. destruct H as [H _]. now apply Z.eqb_eq in H.
Qed.

Lemma canonical_digits (m : positive) (e : Z) :
  canonical m e ->
  Z.pos (digits2_pos m) <= 53 /\ -1074 <= e
  /\ (-1074 < e -> Z.pos (digits2_pos m) = 53).
Proof. unfold canonical. rewrite fexp_unfold. lia. Qed.

Lemma pos_digits_bounds (m : positive) :
  2 ^ (Z.pos (digits2_pos m) - 1) <= Z.pos m < 2 ^ Z.pos (digits2_pos m).
Proof. apply (Zdigits2_bounds (Z.pos m)). lia. Qed.

(** Between positive numbers of the format, the order of the pairs
    (exponent, mantissa) is the order of the values. *)
Lemma SFleb_finite_values (ma mb : positive) (ea eb : Z) :
  canonical ma ea -> canonical mb eb ->
  SFleb (S754_finite false ma ea) (S754_finite false mb eb) = true ->
  ea <= eb /\ Z.pos ma <= Z.pos mb * 2 ^ (eb - ea).
Proof.
  intros Ha Hb. unfold SFleb, SFcompare.
  apply canonical_digits in Ha, Hb.
  destruct (Z.compare_spec ea eb) as [-> | Hlt | Hgt].
  - change (Pos.compare_cont Eq ma mb) with (Pos.compare ma mb).
    destruct (Pos.compare_spec ma mb); intros Hc; try discriminate;
      rewrite Z.sub_diag, Z.pow_0_r; lia.
  - intros _. split; [lia|].
    destruct Ha as (Hda & Hea & _). destruct Hb as (_ & _ & Hdb).
    specialize (Hdb ltac:(lia)).
    pose proof (pos_digits_bounds ma) as [_ Hma].
    pose proof (pos_digits_bounds mb) as [Hmb _]. rewrite Hdb in Hmb.
    assert (2 ^ Z.pos (digits2_pos ma) <= 2 ^ 53)
      by (apply Z.pow_le_mono_r; lia).
    assert (2 ^ 1 <= 2 ^ (eb - ea)) by (apply Z.pow_le_mono_r; lia).
    change (2 ^ (53 - 1)) with 4503599627370496 in Hmb.
    change (2 ^ 53) with 9007199254740992 in *.
    change (2 ^ 1) with 2 in *. nia.
  - discriminate.
Qed.

Lemma SFcompare_antisym (x y : spec_float) :
  SFcompare y x = option_map CompOpp (SFcompare x y).
Proof.
  destruct x as [sx|sx| |sx mx ex], y as [sy|sy| |sy my ey];
    try reflexivity;
    try (destruct sx; reflexivity); try (destruct sy; reflexivity);
    try (destruct sx, sy; reflexivity).
  cbn [SFcompare option_map].
  change (Pos.compare_cont Eq my mx) with (Pos.compare my mx).
  change (Pos.compare_cont Eq mx my) with (Pos.compare mx my).
  rewrite (Z.compare_antisym ex ey), (Pos.compare_antisym mx my).
  destruct sx, sy; try reflexivity;
    destruct (ex ?= ey); cbn [CompOpp]; try reflexivity;
    now rewrite ?CompOpp_involutive.
Qed.

(** Numbers that are comparable are ordered one way or the other. *)
Lemma SFleb_total (x y : spec_float) :
  x <> S754_nan -> y <> S754_nan -> SFltb x y = false -> SFleb y x = true.
Proof.
  intros Hx Hy. unfold SFltb, SFleb. rewrite (SFcompare_antisym x y).
  destruct (SFcompare x y) as [[]|] eqn:E; cbn; try easy.
  destruct x, y; try contradiction; cbn in E; try discriminate;
    repeat match goal with
           | s : bool |- _ => destruct s
           end; discriminate.
Qed.

(** ** Products and quotients *)

Lemma SFmul_lower (mt mq mk : positive) (et eq ek : Z) :
  canonical mt et ->
  (eq + ek <= et -> Z.pos mt * 2 ^ (et - (eq + ek)) <= Z.pos mq * Z.pos mk) ->
  SFleb (S754_finite false mt et)
        (SFmul prec emax (S754_finite false mq eq) (S754_finite false mk ek))
  = true.
Proof.
  intros Hcan Hval. cbn [SFmul xorb].
  apply binary_round_aux_ge; [lia | exact Hcan | exact Hval].
Qed.

(** A quotient of positive numbers of the format is at least one when the
    dividend is at least the divisor. *)
Lemma SFdiv_ge_one (mx my : positive) (ex ey : Z) :
  canonical mx ex -> canonical my ey ->
  SFleb (S754_finite false my ey) (S754_finite false mx ex) = true ->
  SFleb (S754_finite false 4503599627370496 (-52))
        (SFdiv prec emax (S754_finite false mx ex) (S754_finite false my ey))
  = true.
Proof.
  intros Hx Hy Hle.
  destruct (SFleb_finite_values _ _ _ _ Hy Hx Hle) as [He Hv].
  cbn [SFdiv xorb]. unfold SFdiv_core_binary.
  remember (Z.min (fexp prec emax
                     (Zdigits2 (Z.pos mx) + ex - (Zdigits2 (Z.pos my) + ey)))
                  (ex - ey)) as e' eqn:Ee'.
  remember (ex - ey - e') as s eqn:Es.
  assert (Hs : 0 <= s) by lia.
  assert (Hm' : match s with
                | Z.pos _ => Z.shiftl (Z.pos mx) s
                | 0 => Z.pos mx
                | Z.neg _ => 0
                end = Z.pos mx * 2 ^ s).
  { destruct s as [|p|p]; try lia. apply Z.shiftl_mul_pow2. lia. }
  rewrite Hm'. clear Hm'.
  pose proof (Z_div_mod (Z.pos mx * 2 ^ s) (Z.pos my) ltac:(lia)) as Hdiv.
  unfold Z.div in *.
  destruct (Z.div_eucl (Z.pos mx * 2 ^ s) (Z.pos my)) as [q r].
  destruct Hdiv as [Hq Hr].
  assert (Hps : 0 < 2 ^ s) by (apply Z.pow_pos_nonneg; lia).
  apply canonical_digits in Hx, Hy.
  cbn [Zdigits2] in Ee'. rewrite fexp_unfold in Ee'.
  assert (Hbound : e' <= 0 -> 2 ^ (- e') <= q).
  { intros He'.
    assert (Z.pos my * 2 ^ (- e') <= Z.pos mx * 2 ^ s).
    { replace s with ((ex - ey) + (- e')) by lia.
      rewrite Z.pow_add_r by lia.
      assert (0 < 2 ^ (- e')) by (apply Z.pow_pos_nonneg; lia). nia. }
    assert (0 < 2 ^ (- e')) by (apply Z.pow_pos_nonneg; lia). nia. }
  apply binary_round_aux_ge.
  - destruct (Z_le_gt_dec e' 0) as [Hle' | Hgt'].
    + specialize (Hbound Hle').
      assert (0 < 2 ^ (- e')) by (apply Z.pow_pos_nonneg; lia). lia.
    + (* a large quotient: the shifted dividend has more digits than the
         divisor *)
      pose proof (pos_digits_bounds my) as [_ Hmy].
      assert (Z.pos (digits2_pos my) <= s) by lia.
      assert (2 ^ Z.pos (digits2_pos my) <= 2 ^ s)
        by (apply Z.pow_le_mono_r; lia).
      nia.
  - unfold canonical. reflexivity.
  - intros He'. change (Z.pos 4503599627370496) with (2 ^ 52).
    rewrite <- Z.pow_add_r by lia.
    replace (52 + (-52 - e')) with (- e') by lia. apply Hbound. lia.
Qed.


(** ** From the format to the primitive numbers *)

Lemma SFcompare_refl (x : spec_float) :
  x <> S754_nan -> SFcompare x x = Some Eq.
Proof.
  destruct x as [s|s| |s m e]; try easy; intros _; cbn [SFcompare].
  - now destruct s.
  - rewrite Z.compare_refl.
    change (Pos.compare_cont Eq m m) with (Pos.compare m m).
    rewrite Pos.compare_refl. now destruct s.
Qed.

Lemma is_nan_spec (x : float) :
  is_nan x = true <-> Prim2SF x = S754_nan.
Proof.
  unfold is_nan. rewrite FloatAxioms.eqb_spec. unfold SFeqb. split.
  - destruct (Prim2SF x) eqn:E; try reflexivity;
      rewrite SFcompare_refl by discriminate; discriminate.
  - now intros ->.
Qed.

Lemma leb_not_nan (x y : float) :
  (x <=? y)%float = true ->
  Prim2SF x <> S754_nan /\ Prim2SF y <> S754_nan.
Proof.
  rewrite leb_spec. unfold SFleb.
  destruct (Prim2SF x), (Prim2SF y); cbn; try discriminate; now split.
Qed.

Lemma Prim2SF_canonical (x : float) (s : bool) (m : positive) (e : Z) :
  Prim2SF x = S754_finite s m e -> canonical m e.
Proof.
  intros E. pose proof (Prim2SF_valid x) as V. rewrite E in V.
  now apply bounded_canonical.
Qed.

Lemma leb_zero_spec (x : float) :
  (0 <=? x)%float = true <-> at_least_zero (Prim2SF x).
Proof.
  rewrite leb_spec. change (Prim2SF 0) with (S754_zero false).
  unfold SFleb. destruct (Prim2SF x) as [s|s| |s m e]; cbn.
  - tauto.
  - destruct s; split; congruence.
  - split; [discriminate | tauto].
  - destruct s; split; congruence.
Qed.

Lemma signed_at_least_zero (x : spec_float) :
  signed false x -> at_least_zero x.
Proof. destruct x; cbn; tauto. Qed.

Lemma div_at_least_zero (x y : float) :
  (0 <=? x)%float = true -> positive_finite y ->
  (0 <=? x / y)%float = true.
Proof.
  rewrite !leb_zero_spec, div_spec. intros Hx (my & ey & Ey). rewrite Ey.
  destruct (Prim2SF x) as [s|s| |s m e]; cbn in Hx; try contradiction;
    subst; cbn [SF64div SFdiv xorb at_least_zero]; try reflexivity.
  unfold SF64div. cbn [SFdiv xorb]. unfold SFdiv_core_binary.
  match goal with
  | |- context [Z.div_eucl ?a ?b] =>
      pose proof (Z_div_mod a b ltac:(lia)) as Hdiv;
      assert (Ha : 0 <= a);
      [| destruct (Z.div_eucl a b) as [q r] ]
  end.
  { match goal with
    | |- 0 <= match ?s with _ => _ end =>
        destruct s; try lia; apply Z.shiftl_nonneg; lia
    end. }
  apply signed_at_least_zero, binary_round_aux_signed.
  destruct Hdiv as [Hq Hr]. nia.
Qed.

Lemma Prim2SF_100 : Prim2SF 100 = S754_finite false 7036874417766400 (-46).
Proof. reflexivity. Qed.

Lemma Prim2SF_1 : Prim2SF 1 = S754_finite false 4503599627370496 (-52).
Proof. reflexivity. Qed.

Lemma mul_100_at_least_zero (x : float) :
  (0 <=? x)%float = true -> (0 <=? x * 100)%float = true.
Proof.
  rewrite !leb_zero_spec, mul_spec, Prim2SF_100. unfold SF64mul.
  destruct (Prim2SF x) as [s|s| |s m e]; cbn [at_least_zero SFmul xorb];
    try tauto.
  - intros ->. reflexivity.
  - intros ->. apply signed_at_least_zero, binary_round_aux_signed. lia.
Qed.

(** Multiplying by 100 does not take a number below a bound it reached. *)
Lemma mul_100_keeps_bound (t q : float) :
  positive_finite t ->
  (t <=? q)%float = true -> (t <=? q * 100)%float = true.
Proof.
  intros (mt & et & Et). rewrite !leb_spec, mul_spec, Prim2SF_100, Et.
  pose proof (Prim2SF_canonical t _ _ _ Et) as Ht.
  unfold SF64mul.
  destruct (Prim2SF q) as [s|s| |s mq eq] eqn:Eq;
    try (destruct s); try discriminate; try (intros _; reflexivity).
  intros Hle.
  pose proof (Prim2SF_canonical q _ _ _ Eq) as Hq.
  destruct (SFleb_finite_values _ _ _ _ Ht Hq Hle) as [He Hv].
  apply SFmul_lower; [exact Ht|]. intros Hk.
  assert (0 < 2 ^ (et - (eq + -46))) by (apply Z.pow_pos_nonneg; lia).
  assert (Hs : Z.pos mt * 2 ^ (et - (eq + -46))
               <= Z.pos mq * 2 ^ (eq - et) * 2 ^ (et - (eq + -46))) by nia.
  rewrite <- Z.mul_assoc, <- Z.pow_add_r in Hs by lia.
  replace (eq - et + (et - (eq + -46))) with 46 in Hs by lia.
  change (2 ^ 46) with 70368744177664 in Hs. lia.
Qed.

(** A number that is at least one is at least 100 after the product. *)
Lemma mul_100_of_one (q : float) :
  (1 <=? q)%float = true -> (100 <=? q * 100)%float = true.
Proof.
  rewrite !leb_spec, mul_spec, Prim2SF_100, Prim2SF_1. unfold SF64mul.
  destruct (Prim2SF q) as [s|s| |s mq eq] eqn:Eq;
    try (destruct s); try discriminate; try (intros _; reflexivity).
  intros Hle.
  pose proof (Prim2SF_canonical q _ _ _ Eq) as Hq.
  assert (H1 : canonical 4503599627370496 (-52)) by reflexivity.
  assert (H100 : canonical 7036874417766400 (-46)) by reflexivity.
  destruct (SFleb_finite_values _ _ _ _ H1 Hq Hle) as [He Hv].
  apply SFmul_lower; [exact H100|]. intros Hk.
  replace (-46 - (eq + -46)) with (- eq) by lia.
  assert (0 < 2 ^ (- eq)) by (apply Z.pow_pos_nonneg; lia).
  assert (0 < 2 ^ (eq - -52)) by (apply Z.pow_pos_nonneg; lia).
  assert (2 ^ (- eq) * 2 ^ (eq - -52) = 4503599627370496).
  { rewrite <- Z.pow_add_r by lia.
    now replace (- eq + (eq - -52)) with 52 by lia. }
  assert (2 ^ (- eq) <= Z.pos mq) by nia.
  nia.
Qed.

(** A quotient is at least one when the dividend is at least the divisor. *)
Lemma div_at_least_one (x y : float) :
  positive_finite y ->
  (y <=? x)%float = true -> (1 <=? x / y)%float = true.
Proof.
  intros (my & ey & Ey). rewrite !leb_spec, div_spec, Prim2SF_1, Ey.
  pose proof (Prim2SF_canonical y _ _ _ Ey) as Hy.
  unfold SF64div.
  destruct (Prim2SF x) as [s|s| |s mx ex] eqn:Ex;
    try (destruct s); try discriminate; try (intros _; reflexivity).
  intros Hle.
  pose proof (Prim2SF_canonical x _ _ _ Ex) as Hx.
  now apply SFdiv_ge_one.
Qed.


(** ** [Math.min] and [Math.max] with a constant *)

Lemma is_nan_false (x : float) :
  Prim2SF x <> S754_nan -> is_nan x = false.
Proof.
  intros H. destruct (is_nan x) eqn:E; [|reflexivity].
  apply is_nan_spec in E. contradiction.
Qed.

Lemma ltb_leb (x y : float) :
  (x <? y)%float = true -> (x <=? y)%float = true.
Proof.
  rewrite ltb_spec, leb_spec. unfold SFltb, SFleb.
  now destruct (SFcompare (Prim2SF x) (Prim2SF y)) as [[]|].
Qed.

Lemma not_ltb_leb (x y : float) :
  Prim2SF x <> S754_nan -> Prim2SF y <> S754_nan ->
  (x <? y)%float = false -> (y <=? x)%float = true.
Proof.
  rewrite ltb_spec, leb_spec. apply SFleb_total.
Qed.

Lemma min_100 (p : float) :
  Prim2SF p <> S754_nan ->
  Math.min 100 p = if (100 <? p)%float then 100%float else p.
Proof.
  intros Hp. unfold Math.min. rewrite (is_nan_false p Hp).
  change (is_nan 100) with false. change (get_sign 100) with false.
  cbn [orb]. destruct (100 <? p)%float; [reflexivity|].
  now destruct (p <? 100)%float.
Qed.

Lemma max_0 (r : float) :
  Prim2SF r <> S754_nan ->
  Math.max 0 r = if (0 <? r)%float then r else 0%float.
Proof.
  intros Hr. unfold Math.max. rewrite (is_nan_false r Hr).
  change (is_nan 0) with false. change (get_sign 0) with false.
  cbn [orb]. destruct (0 <? r)%float; [reflexivity|].
  now destruct (r <? 0)%float.
Qed.

Lemma max_0_at_least_zero (r : float) :
  Prim2SF r <> S754_nan -> (0 <=? Math.max 0 r)%float = true.
Proof.
  intros Hr. rewrite max_0 by exact Hr.
  destruct (0 <? r)%float eqn:E; [now apply ltb_leb | reflexivity].
Qed.

(** Equal to 100 in the order means being 100. *)
Lemma leb_100_antisym (p : float) :
  (100 <=? p)%float = true -> (100 <? p)%float = false -> p = 100%float.
Proof.
  rewrite leb_spec, ltb_spec, Prim2SF_100. unfold SFleb, SFltb.
  intros Hle Hlt. apply Prim2SF_inj. rewrite Prim2SF_100.
  destruct (Prim2SF p) as [s|s| |s m e]; try (destruct s); try discriminate.
  cbn [SFcompare] in Hle, Hlt.
  destruct (Z.compare_spec (-46) e) as [He | |]; try discriminate.
  change (Pos.compare_cont Eq 7036874417766400 m)
    with (Pos.compare 7036874417766400 m) in Hle, Hlt.
  destruct (Pos.compare_spec 7036874417766400 m) as [Hm | |];
    try discriminate. now rewrite <- He, <- Hm.
Qed.

Lemma positive_finite_not_zero (y : float) :
  positive_finite y -> (y =? 0)%float = false.
Proof.
  intros (m & e & E). rewrite FloatAxioms.eqb_spec, E. reflexivity.
Qed.

Lemma calculatePercentage_bounds (current max : float) :
  positive_finite max -> (0 <=? current)%float = true ->
  (0 <=? calculatePercentage current max)%float = true
  /\ (calculatePercentage current max <=? 100)%float = true
  /\ ((max <=? current)%float = true ->
      calculatePercentage current max = 100%float).
Proof.
  intros Hmax Hcur. unfold calculatePercentage.
  rewrite (positive_finite_not_zero max Hmax).
  pose proof (mul_100_at_least_zero _ (div_at_least_zero _ _ Hcur Hmax))
    as Hp.
  destruct (leb_not_nan _ _ Hp) as [_ Hnan].
  rewrite min_100 by exact Hnan.
  destruct (100 <? current / max * 100)%float eqn:E.
  - repeat split; reflexivity.
  - split; [exact Hp | split].
    + apply not_ltb_leb; [discriminate | exact Hnan | exact E].
    + intros Hge. apply leb_100_antisym; [|exact E].
      apply mul_100_of_one. now apply div_at_least_one.
Qed.

(** A difference with a finite number is a number unless [NaN] went in. *)
Lemma sub_not_nan (y c : float) :
  positive_finite y -> Prim2SF c <> S754_nan ->
  Prim2SF (y - c) <> S754_nan.
Proof.
  intros (my & ey & Ey) Hc. rewrite sub_spec, Ey. unfold SF64sub.
  destruct (Prim2SF c) as [s|s| |s mc ec]; try contradiction;
    cbn [SFsub]; try discriminate.
  unfold binary_normalize.
  match goal with
  | |- match ?z with _ => _ end <> _ => destruct z as [|p|p]
  end; try discriminate; unfold binary_round;
    match goal with
    | |- (let '(_, _) := ?a in _) <> _ => destruct a as [mz ez]
    end;
    match goal with
    | |- binary_round_aux _ _ ?s ?m ?e ?l <> _ =>
        pose proof (binary_round_aux_signed s m e l ltac:(lia)) as Hs;
        destruct (binary_round_aux prec emax s m e l); easy
    end.
Qed.


(** The order is transitive from a positive finite number upwards. *)
Lemma leb_trans_positive (a b p : float) :
  positive_finite a -> positive_finite b ->
  (a <=? b)%float = true -> (b <=? p)%float = true ->
  (a <=? p)%float = true.
Proof.
  intros (ma & ea & Ea) (mb & eb & Eb). rewrite !leb_spec, Ea, Eb.
  unfold SFleb.
  destruct (Prim2SF p) as [s|s| |s m e]; try (destruct s); cbn [SFcompare];
    try discriminate; try (intros _ _; reflexivity).
  change (Pos.compare_cont Eq ma mb) with (Pos.compare ma mb).
  change (Pos.compare_cont Eq mb m) with (Pos.compare mb m).
  change (Pos.compare_cont Eq ma m) with (Pos.compare ma m).
  destruct (Z.compare_spec ea eb), (Z.compare_spec eb e),
    (Z.compare_spec ea e); try lia; try discriminate; try reflexivity;
    destruct (Pos.compare_spec ma mb), (Pos.compare_spec mb m),
      (Pos.compare_spec ma m); try lia; try discriminate; reflexivity.
Qed.


(** ** Differences *)

Lemma pos_iter_xO (m d : positive) :
  Z.pos (Pos.iter xO m d) = Z.pos m * 2 ^ Z.pos d.
Proof.
  induction d as [|d IH] using Pos.peano_ind.
  - cbn [Pos.iter]. lia.
  - rewrite Pos.iter_succ, Pos2Z.inj_succ, Z.pow_succ_r by lia.
    rewrite Pos2Z.inj_xO, IH. ring.
Qed.

(** Aligning a mantissa on a smaller exponent keeps the value. *)
Lemma shl_align_spec (m : positive) (e e' : Z) :
  e' <= e ->
  Z.pos (fst (shl_align m e e')) = Z.pos m * 2 ^ (e - e')
  /\ snd (shl_align m e e') = e'.
Proof.
  intros He. unfold shl_align.
  destruct (e' - e) as [|d|d] eqn:Ed; try lia; cbn [fst snd].
  - replace (e - e') with 0 by lia. split; lia.
  - rewrite pos_iter_xO. replace (e - e') with (Z.pos d) by lia.
    split; [reflexivity | lia].
Qed.

Lemma shl_align_id (m : positive) (e e' : Z) :
  e <= e' -> shl_align m e e' = (m, e).
Proof.
  intros He. unfold shl_align. destruct (e' - e) eqn:Ed; try reflexivity. lia.
Qed.

Lemma binary_round_signed (s : bool) (m : positive) (e : Z) :
  signed s (binary_round prec emax s m e).
Proof.
  unfold binary_round.
  destruct (shl_align m e (fexp prec emax (Z.pos (digits2_pos m) + e)))
    as [mz ez].
  apply binary_round_aux_signed. lia.
Qed.

(** A positive whole number of units of the format does not round to
    zero: the result is at least the smallest positive number. *)
Lemma binary_round_positive (m : positive) (e : Z) :
  -1074 <= e ->
  SFleb (S754_finite false 1 (-1074)) (binary_round prec emax false m e)
  = true.
Proof.
  intros He. unfold binary_round.
  set (e' := fexp prec emax (Z.pos (digits2_pos m) + e)).
  assert (He' : -1074 <= e') by (subst e'; rewrite fexp_unfold; lia).
  destruct (Z_le_gt_dec e' e) as [Hle | Hgt].
  - destruct (shl_align_spec m e e' Hle) as [Hm Hs].
    destruct (shl_align m e e') as [mz ez]. cbn [fst snd] in Hm, Hs.
    apply binary_round_aux_ge; [lia | reflexivity |].
    intros Hz. replace (-1074 - ez) with 0 by lia. lia.
  - rewrite shl_align_id by lia.
    apply binary_round_aux_ge; [lia | reflexivity |].
    intros Hz. replace (-1074 - e) with 0 by lia. lia.
Qed.

(** Between positive numbers of the format, the strict order of the pairs
    is the strict order of the values. *)
Lemma SFltb_finite_values (ma mb : positive) (ea eb : Z) :
  canonical ma ea -> canonical mb eb ->
  SFltb (S754_finite false ma ea) (S754_finite false mb eb) = true ->
  ea <= eb /\ Z.pos ma < Z.pos mb * 2 ^ (eb - ea).
Proof.
  intros Ha Hb. unfold SFltb, SFcompare.
  apply canonical_digits in Ha, Hb.
  destruct (Z.compare_spec ea eb) as [-> | Hlt | Hgt].
  - change (Pos.compare_cont Eq ma mb) with (Pos.compare ma mb).
    destruct (Pos.compare_spec ma mb); intros Hc; try discriminate;
      rewrite Z.sub_diag, Z.pow_0_r; lia.
  - intros _. split; [lia|].
    destruct Ha as (Hda & Hea & _). destruct Hb as (_ & _ & Hdb).
    specialize (Hdb ltac:(lia)).
    pose proof (pos_digits_bounds ma) as [_ Hma].
    pose proof (pos_digits_bounds mb) as [Hmb _]. rewrite Hdb in Hmb.
    assert (2 ^ Z.pos (digits2_pos ma) <= 2 ^ 53)
      by (apply Z.pow_le_mono_r; lia).
    assert (2 ^ 1 <= 2 ^ (eb - ea)) by (apply Z.pow_le_mono_r; lia).
    change (2 ^ (53 - 1)) with 4503599627370496 in Hmb.
    change (2 ^ 53) with 9007199254740992 in *.
    change (2 ^ 1) with 2 in *. nia.
  - discriminate.
Qed.

(** The difference [y - x] of two positive numbers of the format, as
    [SFsub] computes it before rounding. *)
Lemma SFsub_finite (my mx : positive) (ey ex : Z) :
  SFsub prec emax (S754_finite false my ey) (S754_finite false mx ex)
  = binary_normalize prec emax
      (Z.pos (fst (shl_align my ey (Z.min ey ex)))
       - Z.pos (fst (shl_align mx ex (Z.min ey ex))))
      (Z.min ey ex) false.
Proof. reflexivity. Qed.

(** [0 <= x] or [x <= 0] after [Math.max(0, x)]. *)
Lemma max_0_of_at_most_zero (r : float) :
  (r <=? 0)%float = true -> Math.max 0 r = 0%float.
Proof.
  intros Hr. destruct (leb_not_nan _ _ Hr) as [Hnan _].
  rewrite max_0 by exact Hnan.
  destruct (0 <? r)%float eqn:E; [|reflexivity]. exfalso.
  revert Hr E. rewrite leb_spec, ltb_spec. unfold SFleb, SFltb.
  rewrite (SFcompare_antisym (Prim2SF r) (Prim2SF 0)).
  now destruct (SFcompare (Prim2SF r) (Prim2SF 0)) as [[]|].
Qed.

Lemma max_0_of_positive (r : float) :
  (0 <? r)%float = true -> Math.max 0 r = r.
Proof.
  intros Hr. assert (Hnan : Prim2SF r <> S754_nan).
  { apply ltb_leb in Hr. now apply leb_not_nan in Hr. }
  rewrite max_0 by exact Hnan. now rewrite Hr.
Qed.

(** Once the count has reached the ceiling nothing remains. *)
Lemma sub_at_most_zero (y x : float) :
  positive_finite y -> (y <=? x)%float = true -> (y - x <=? 0)%float = true.
Proof.
  intros (my & ey & Ey). rewrite !leb_spec, sub_spec, Ey.
  change (Prim2SF 0) with (S754_zero false).
  pose proof (Prim2SF_canonical y _ _ _ Ey) as Hy.
  unfold SF64sub.
  destruct (Prim2SF x) as [s|s| |s mx ex] eqn:Ex;
    try (destruct s); try discriminate; try (intros _; reflexivity).
  intros Hle.
  pose proof (Prim2SF_canonical x _ _ _ Ex) as Hx.
  destruct (SFleb_finite_values _ _ _ _ Hy Hx Hle) as [He Hv].
  rewrite SFsub_finite. rewrite Z.min_l by exact He.
  rewrite (shl_align_id my ey ey) by lia. cbn [fst].
  destruct (shl_align_spec mx ex ey He) as [Hm _]. rewrite Hm.
  unfold binary_normalize.
  destruct (Z.pos my - Z.pos mx * 2 ^ (ex - ey)) as [|p|p] eqn:Ed;
    try lia; [reflexivity|].
  pose proof (binary_round_signed true p ey) as Hs.
  destruct (binary_round prec emax true p ey) as [s'|s'| |s' m' e'];
    cbn in Hs; try contradiction; subst; reflexivity.
Qed.

(** As long as the count is below the ceiling something remains. *)
Lemma sub_positive (y x : float) :
  positive_finite y -> (0 <=? x)%float = true -> (x <? y)%float = true ->
  (0 <? y - x)%float = true.
Proof.
  intros (my & ey & Ey) H0. rewrite !ltb_spec, sub_spec, Ey.
  apply leb_zero_spec in H0.
  change (Prim2SF 0) with (S754_zero false).
  pose proof (Prim2SF_canonical y _ _ _ Ey) as Hy.
  unfold SF64sub.
  destruct (Prim2SF x) as [s|s| |s mx ex] eqn:Ex; cbn in H0;
    try contradiction; subst; try discriminate;
    try (intros _; reflexivity).
  intros Hlt.
  pose proof (Prim2SF_canonical x _ _ _ Ex) as Hx.
  destruct (SFltb_finite_values _ _ _ _ Hx Hy Hlt) as [He Hv].
  rewrite SFsub_finite. rewrite Z.min_r by exact He.
  rewrite (shl_align_id mx ex ex) by lia. cbn [fst].
  destruct (shl_align_spec my ey ex He) as [Hm _]. rewrite Hm.
  unfold binary_normalize.
  destruct (Z.pos my * 2 ^ (ey - ex) - Z.pos mx) as [|p|p] eqn:Ed;
    try lia.
  apply canonical_digits in Hx.
  pose proof (binary_round_positive p ex ltac:(lia)) as Hp.
  unfold SFleb in Hp. unfold SFltb.
  destruct (binary_round prec emax false p ex) as [s'|s'| |s' m' e'];
    cbn in Hp |- *; try discriminate; destruct s'; try discriminate;
    reflexivity.
Qed.


End Binary64.

(** ** The quota catalog *)

(** C2: [getQuotasForTier] does not read the receiver; it returns the fixed
    ceilings 225/550/500/1275 for 'pro', 675/1650/1500/3825 for 'pro-plus'
    and 4500/11000/10000/25500 for 'ultra', and every other tier argument
    gets the quota set of 'pro'. *)
Theorem getQuotasForTier_catalog :
  getQuotasForTier "pro" = CursorProQuotas.mk 225 550 500 1275 "pro"
  /\ getQuotasForTier "pro-plus" = CursorProQuotas.mk 675 1650 1500 3825 "pro-plus"
  /\ getQuotasForTier "ultra" = CursorProQuotas.mk 4500 11000 10000 25500 "ultra"
  /\ forall tier : SubscriptionTier,
       tier <> "pro"%string -> tier <> "pro-plus"%string ->
       tier <> "ultra"%string ->
       getQuotasForTier tier = getQuotasForTier "pro".
Proof.
  repeat apply conj; try reflexivity.
  intros tier Hpro Hplus Hultra.
  unfold getQuotasForTier.
  apply String.eqb_neq in Hpro, Hplus, Hultra.
  now rewrite Hpro, Hplus, Hultra.
Qed.

Lemma getQuotasForTier_catalog_witness :
  getQuotasForTier "enterprise" = getQuotasForTier "pro".
Proof.
  apply (proj2 (proj2 (proj2 getQuotasForTier_catalog))); discriminate.
Defined.

(** The catalog has no other quota sets than the three of the tiers. *)
Lemma getQuotasForTier_cases (tier : SubscriptionTier) :
  getQuotasForTier tier = CursorProQuotas.mk 225 550 500 1275 "pro"
  \/ getQuotasForTier tier = CursorProQuotas.mk 675 1650 1500 3825 "pro-plus"
  \/ getQuotasForTier tier = CursorProQuotas.mk 4500 11000 10000 25500 "ultra".
Proof.
  unfold getQuotasForTier.
  destruct (tier =? "pro")%string; [now left|].
  destruct (tier =? "pro-plus")%string; [now right; left|].
  destruct (tier =? "ultra")%string; [now right; right | now left].
Qed.

(** ** Facts about methods *)

Lemma read_only_ret {A : Type} (a : A) : read_only (ret a).
Proof. intros this. split; reflexivity. Qed.

Lemma read_only_bind {A B : Type} (f : Method A) (k : A -> Method B) :
  read_only f -> (forall a, read_only (k a)) -> read_only (bind f k).
Proof.
  intros Hf Hk this. unfold bind, after, calls. cbn.
  destruct (Hf this) as [Hs Hc]. unfold after, calls in Hs, Hc.
  rewrite Hs, Hc.
  destruct (Hk (result (f this)) this) as [Hs' Hc'].
  unfold after, calls in Hs', Hc'. now rewrite Hs', Hc'.
Qed.

Lemma read_only_mapM {A B : Type} (f : A -> Method B) (l : list A) :
  (forall x, read_only (f x)) -> read_only (mapM f l).
Proof.
  intros Hf. induction l as [|x rest IH]; cbn [mapM].
  - apply read_only_ret.
  - apply read_only_bind; [apply Hf|]. intros y.
    apply read_only_bind; [exact IH|]. intros ys. apply read_only_ret.
Qed.

Lemma forEach_call (l : list Callback) (stats : UsageStats.t) (this : t) :
  forEach l (fun callback => call callback stats) this
  = (tt, this, map (fun callback => (callback, stats)) l).
Proof.
  induction l as [|x rest IH]; [reflexivity|].
  cbn [forEach map]. unfold bind.
  change (after (call x stats this)) with this.
  rewrite IH. reflexivity.
Qed.

Lemma getUsageStats_read_only : read_only getUsageStats.
Proof. intros this. split; reflexivity. Qed.

Lemma getServiceUsage_read_only (c : ServiceType.t) :
  read_only (getServiceUsage c).
Proof. intros this. split; reflexivity. Qed.

Lemma notifyCallbacks_run (this : t) :
  notifyCallbacks this
  = (tt, this,
     map (fun callback => (callback, result (getUsageStats this)))
         (updateCallbacks this)).
Proof.
  unfold notifyCallbacks, bind.
  change (after (getUsageStats this)) with this.
  change (after (read updateCallbacks this)) with this.
  change (result (read updateCallbacks this)) with (updateCallbacks this).
  rewrite forEach_call. reflexivity.
Qed.

Lemma updateLimits_run (now : Date) (p : PartialLimits.t) (this : t) :
  let limits' :=
    CursorProLimits.mk
      (CursorProLimits.sonnet45Requests (spread (limits this) p))
      (CursorProLimits.geminiRequests (spread (limits this) p))
      (CursorProLimits.gpt5Requests (spread (limits this) p))
      (CursorProLimits.totalRequests (spread (limits this) p))
      now in
  let this' := mk limits' (quotas this) (updateCallbacks this) in
  updateLimits now p this
  = (tt, this',
     map (fun callback => (callback, result (getUsageStats this')))
         (updateCallbacks this)).
Proof.
  cbv zeta. unfold updateLimits, bind.
  rewrite notifyCallbacks_run. reflexivity.
Qed.

Lemma updateTier_run (tier : SubscriptionTier) (this : t) :
  let this' := mk (limits this) (getQuotasForTier tier) (updateCallbacks this) in
  updateTier tier this
  = (tt, this',
     map (fun callback => (callback, result (getUsageStats this')))
         (updateCallbacks this)).
Proof.
  cbv zeta. unfold updateTier, bind.
  rewrite notifyCallbacks_run. reflexivity.
Qed.

Lemma run_cons (op : Operation) (ops : list Operation) (this : t) :
  after (run (op :: ops) this) = after (run ops (after (perform op this)))
  /\ calls (run (op :: ops) this)
     = calls (perform op this) ++ calls (run ops (after (perform op this))).
Proof. split; reflexivity. Qed.

(** ** Counts, ceilings and the derived figures *)

Lemma percentageOf_calculatePercentage (m : t) (c : ServiceType.t) :
  percentageOf m c = calculatePercentage (currentOf m c) (ceilingOf m c).
Proof. destruct c; reflexivity. Qed.

Lemma remainingOf_max (m : t) (c : ServiceType.t) :
  remainingOf m c = Math.max 0 (ceilingOf m c - currentOf m c).
Proof. destruct c; reflexivity. Qed.

Lemma ceiling_positive (m : t) (c : ServiceType.t) :
  quotas_of_catalog m -> positive_finite (ceilingOf m c).
Proof.
  intros [tier Hq]. unfold ceilingOf, getMaxUsage, bind, read, ret, result.
  cbn. rewrite Hq. unfold positive_finite.
  destruct (getQuotasForTier_cases tier) as [E | [E | E]]; rewrite E;
    destruct c; cbn; eexists; eexists; reflexivity.
Qed.

Lemma removeUpdateCallback_fields (callback : Callback) (m : t) :
  limits (after (removeUpdateCallback callback m)) = limits m
  /\ quotas (after (removeUpdateCallback callback m)) = quotas m
  /\ calls (removeUpdateCallback callback m) = [].
Proof.
  unfold removeUpdateCallback, bind.
  change (result (read updateCallbacks m)) with (updateCallbacks m).
  change (after (read updateCallbacks m)) with m.
  destruct (JSArray.indexOf Nat.eqb (updateCallbacks m) callback >? -1)%Z;
    repeat split; reflexivity.
Qed.

Lemma perform_keeps (op : Operation) (m : t) :
  nonnegative op ->
  counts_nonnegative m /\ quotas_of_catalog m ->
  counts_nonnegative (after (perform op m))
  /\ quotas_of_catalog (after (perform op m)).
Proof.
  intros Hop [Hc Hq]. destruct op as [now p|tier|cb|cb| |s| |]; cbn [perform].
  - rewrite updateLimits_run. cbv zeta. split; [|exact Hq].
    intros c. specialize (Hc c). specialize (Hop c).
    destruct c; cbn in *;
      match goal with
      | |- context [match ?o with Some _ => _ | None => _ end] =>
          destruct o; [now apply Hop | exact Hc]
      end.
  - rewrite updateTier_run. cbv zeta. split; [exact Hc | now exists tier].
  - split; assumption.
  - destruct (removeUpdateCallback_fields cb m) as (Hl & Hqs & _).
    split.
    + intros c. specialize (Hc c).
      unfold currentOf, getCurrentUsage, bind, read, ret, result in *.
      cbn in *. now rewrite Hl.
    + destruct Hq as [tier Hq]. exists tier. now rewrite Hqs.
  - split; assumption.
  - split; assumption.
  - split; assumption.
  - split; assumption.
Qed.

Lemma run_keeps (ops : list Operation) (m : t) :
  Forall nonnegative ops ->
  counts_nonnegative m /\ quotas_of_catalog m ->
  counts_nonnegative (after (run ops m)) /\ quotas_of_catalog (after (run ops m)).
Proof.
  intros Hops. revert m. induction Hops as [|op ops Hop _ IH]; intros m Hm.
  - exact Hm.
  - rewrite (proj1 (run_cons op ops m)). apply IH. now apply perform_keeps.
Qed.

Lemma reached_nonnegative_keeps (m : t) :
  reached_nonnegative m -> counts_nonnegative m /\ quotas_of_catalog m.
Proof.
  intros (now & tier & ops & Hops & ->). apply run_keeps; [exact Hops|].
  split.
  - intros c. destruct c; reflexivity.
  - eexists. reflexivity.
Qed.

(** C3: for every monitor and every service (the aggregate included),
    [getUsageStats] reports the percentage min(100, 100 * current / ceiling),
    the quotient being taken before the product, and 0 when the ceiling is
    zero, and the remaining max(0, ceiling - current); in a monitor reached
    without negative counts the percentage lies in [0, 100], is 100 as soon
    as the count reaches the ceiling, and the remaining is never negative. *)
Theorem getUsageStats_derived_figures (m : t) (c : ServiceType.t) :
  percentageOf m c
  = (if ceilingOf m c =? 0 then 0
     else Math.min 100 (currentOf m c / ceilingOf m c * 100))
  /\ ((ceilingOf m c =? 0) = true -> percentageOf m c = 0)
  /\ remainingOf m c = Math.max 0 (ceilingOf m c - currentOf m c)
  /\ (reached_nonnegative m ->
      ((0 <=? percentageOf m c) = true /\ (percentageOf m c <=? 100) = true)
      /\ ((ceilingOf m c <=? currentOf m c) = true -> percentageOf m c = 100)
      /\ (0 <=? remainingOf m c) = true).
Proof.
  rewrite percentageOf_calculatePercentage, remainingOf_max.
  split; [reflexivity|]. split; [|split; [reflexivity|]].
  - intros Hz. unfold calculatePercentage. now rewrite Hz.
  - intros Hreach. apply reached_nonnegative_keeps in Hreach.
    destruct Hreach as [Hc Hq].
    pose proof (ceiling_positive m c Hq) as Hpos.
    destruct (Binary64.calculatePercentage_bounds _ _ Hpos (Hc c))
      as (H0 & H100 & Hfull).
    split; [split; assumption|]. split; [exact Hfull|].
    apply Binary64.max_0_at_least_zero, Binary64.sub_not_nan; [exact Hpos|].
    apply (Binary64.leb_not_nan 0), Hc.
Qed.

Lemma getUsageStats_derived_figures_witness :
  percentageOf (mk (CursorProLimits.mk 5 0 0 0 0)
                   (CursorProQuotas.mk 0 550 500 1275 "pro") [])
               ServiceType.sonnet45 = 0
  /\ percentageOf
       (after (run [UpdateLimits 1 (PartialLimits.mk (Some 300) None None None None)]
                   (new 0 None)))
       ServiceType.sonnet45 = 100.
Proof.
  split.
  - apply (proj1 (proj2 (getUsageStats_derived_figures _ _))). reflexivity.
  - apply (proj2 (proj2 (proj2 (getUsageStats_derived_figures _ _)))).
    + exists 0%Z, None,
        [UpdateLimits 1 (PartialLimits.mk (Some 300) None None None None)].
      split; [|reflexivity].
      constructor; [|constructor].
      intros c v. destruct c; cbn; intros E; inversion E. reflexivity.
    + reflexivity.
Defined.

(** ** Alerts *)

Lemma getServiceUsage_fields (m : t) (c : ServiceType.t) :
  result (getServiceUsage c m)
  = ServiceUsage.mk c (currentOf m c) (ceilingOf m c)
      (percentageOf m c) (remainingOf m c)
      (geq (percentageOf m c) 0.8) (geq (percentageOf m c) 0.95).
Proof. destruct c; reflexivity. Qed.

Lemma checkAlerts_run (m : t) :
  checkAlerts m
  = (filter (fun usage => ServiceUsage.isWarning usage
                          || ServiceUsage.isCritical usage)
            (map (fun c => result (getServiceUsage c m)) services),
     m, []).
Proof. reflexivity. Qed.

(** The flags as the class computes them: the thresholds 0.8 and 0.95 are
    compared with the percentage on its 0-100 scale. *)
Lemma getServiceUsage_flags (m : t) (c : ServiceType.t) :
  ServiceUsage.isWarning (result (getServiceUsage c m))
  = (0.8 <=? percentageOf m c)
  /\ ServiceUsage.isCritical (result (getServiceUsage c m))
     = (0.95 <=? percentageOf m c).
Proof. rewrite getServiceUsage_fields. split; reflexivity. Qed.

(** A count that reached the part [threshold] of a non-zero ceiling has a
    percentage of [threshold] or more, for a threshold up to 100. *)
Lemma percentage_reaches_fraction (m : t) (c : ServiceType.t)
      (threshold : number) :
  positive_finite threshold -> (threshold <=? 100) = true ->
  (ceilingOf m c =? 0) = false ->
  (threshold <=? currentOf m c / ceilingOf m c) = true ->
  (threshold <=? percentageOf m c) = true.
Proof.
  intros Hpos H100 Hz Hf. rewrite percentageOf_calculatePercentage.
  unfold calculatePercentage. rewrite Hz.
  pose proof (Binary64.mul_100_keeps_bound _ _ Hpos Hf) as Hp.
  destruct (Binary64.leb_not_nan _ _ Hp) as [_ Hnan].
  rewrite Binary64.min_100 by exact Hnan.
  now destruct (100 <? currentOf m c / ceilingOf m c * 100).
Qed.

(** C1, as the class has it: the warning flag is set whenever the count is
    at least 0.8 of a non-zero ceiling and the critical flag whenever it is
    at least 0.95 of it; after the update to 200/500/450/1150 on the 'pro'
    tier all four services are at 0.8 of their ceiling or more and
    [checkAlerts] returns four entries, in the order sonnet45, gemini,
    gpt5, total. *)
Theorem getServiceUsage_flags_from_fraction :
  (forall (m : t) (c : ServiceType.t),
      (ceilingOf m c =? 0) = false ->
      ((0.8 <=? currentOf m c / ceilingOf m c) = true ->
       ServiceUsage.isWarning (result (getServiceUsage c m)) = true)
      /\ ((0.95 <=? currentOf m c / ceilingOf m c) = true ->
          ServiceUsage.isCritical (result (getServiceUsage c m)) = true))
  /\ (forall t0 t1 t2 : Date,
         (forall c, (0.8 <=? currentOf (scenario t0 t1 t2) c
                             / ceilingOf (scenario t0 t1 t2) c) = true)
         /\ map ServiceUsage.service (result (checkAlerts (scenario t0 t1 t2)))
            = [ServiceType.sonnet45; ServiceType.gemini; ServiceType.gpt5;
               ServiceType.total]).
Proof.
  split.
  - intros m c Hz.
    destruct (getServiceUsage_flags m c) as [-> ->].
    split; intros Hf; apply percentage_reaches_fraction;
      try assumption; try reflexivity; eexists; eexists; reflexivity.
  - intros t0 t1 t2. split; [|reflexivity].
    intros c. destruct c; reflexivity.
Qed.

Lemma getServiceUsage_flags_from_fraction_witness :
  ServiceUsage.isWarning
    (result (getServiceUsage ServiceType.gemini (scenario 0 1 2))) = true
  /\ ServiceUsage.isCritical
       (result (getServiceUsage ServiceType.sonnet45
                  (after (run [UpdateLimits 1 (PartialLimits.mk (Some 220) None None None None)]
                              (new 0 None))))) = true.
Proof.
  split.
  - apply (proj1 getServiceUsage_flags_from_fraction); reflexivity.
  - apply (proj1 getServiceUsage_flags_from_fraction); reflexivity.
Defined.

(** C1 as stated fails on its scenario and on its rule.  On the scenario
    the list [checkAlerts] returns is not gemini, gpt5, total: it has four
    entries and starts with sonnet45, whose count 200 is more than 0.8 of
    its ceiling 225; and its entries are flagged critical.  And after the
    first update alone sonnet45 stands at 150 of 225, less than 0.8 of the
    ceiling, with the warning flag set. *)
Lemma checkAlerts_scenario_counterexample :
  ~ (map ServiceUsage.service (result (checkAlerts (scenario 0 1 2)))
     = [ServiceType.gemini; ServiceType.gpt5; ServiceType.total])
  /\ ~ (forall usage,
          In usage (result (checkAlerts (scenario 0 1 2))) ->
          ServiceUsage.isCritical usage = false)
  /\ ~ (ServiceUsage.isWarning
          (result (getServiceUsage ServiceType.sonnet45
                     (after (run [UpdateLimits 1 scenario_first] (new 0 None)))))
        = true
        <-> (0.8 <=? 150 / 225) = true).
Proof.
  split; [|split].
  - discriminate.
  - intros H.
    specialize (H (result (getServiceUsage ServiceType.gemini (scenario 0 1 2)))).
    discriminate H. right. left. reflexivity.
  - intros [H _]. specialize (H eq_refl). discriminate H.
Qed.

Example checkAlerts_scenario_flags (t0 t1 t2 : Date) :
  map (fun u => (ServiceUsage.service u, ServiceUsage.isWarning u,
                 ServiceUsage.isCritical u))
      (result (checkAlerts (scenario t0 t1 t2)))
  = [(ServiceType.sonnet45, true, true); (ServiceType.gemini, true, true);
     (ServiceType.gpt5, true, true); (ServiceType.total, true, true)].
Proof. reflexivity. Qed.

Example checkAlerts_first_update_flags (t0 t1 : Date) :
  map (fun u => (ServiceUsage.service u, ServiceUsage.isWarning u,
                 ServiceUsage.isCritical u))
      (result (checkAlerts
                 (after (run [UpdateLimits t1 scenario_first] (new t0 None)))))
  = [(ServiceType.sonnet45, true, true); (ServiceType.gemini, true, true);
     (ServiceType.gpt5, true, true); (ServiceType.total, true, true)].
Proof. reflexivity. Qed.

(** C10: in every [ServiceUsage] that [getServiceUsage] or [checkAlerts]
    produces, whatever the monitor and the service, a set critical flag
    comes with a set warning flag. *)
Theorem critical_implies_warning (m : t) :
  (forall c,
      ServiceUsage.isCritical (result (getServiceUsage c m)) = true ->
      ServiceUsage.isWarning (result (getServiceUsage c m)) = true)
  /\ (forall usage,
         In usage (result (checkAlerts m)) ->
         ServiceUsage.isCritical usage = true ->
         ServiceUsage.isWarning usage = true).
Proof.
  assert (Hone : forall c,
             ServiceUsage.isCritical (result (getServiceUsage c m)) = true ->
             ServiceUsage.isWarning (result (getServiceUsage c m)) = true).
  { intros c. destruct (getServiceUsage_flags m c) as [-> ->].
    apply Binary64.leb_trans_positive;
      try reflexivity; eexists; eexists; reflexivity. }
  split; [exact Hone|].
  intros usage Hin. rewrite checkAlerts_run in Hin. cbn [result fst] in Hin.
  apply filter_In in Hin. destruct Hin as [Hin _].
  apply in_map_iff in Hin. destruct Hin as (c & <- & _). apply Hone.
Qed.

Lemma critical_implies_warning_witness :
  ServiceUsage.isWarning
    (result (getServiceUsage ServiceType.gpt5 (scenario 0 1 2))) = true
  /\ (forall usage,
         In usage (result (checkAlerts (scenario 0 1 2))) ->
         ServiceUsage.isCritical usage = true ->
         ServiceUsage.isWarning usage = true).
Proof.
  split.
  - apply (proj1 (critical_implies_warning (scenario 0 1 2))). reflexivity.
  - apply (proj2 (critical_implies_warning (scenario 0 1 2))).
Defined.

Lemma service_of_getServiceUsage (m : t) (c : ServiceType.t) :
  ServiceUsage.service (result (getServiceUsage c m)) = c.
Proof. now rewrite getServiceUsage_fields. Qed.

Lemma NoDup_services : NoDup services.
Proof.
  unfold services. repeat constructor; cbn; intuition discriminate.
Qed.

(** C4: [checkAlerts] asks [getServiceUsage] for sonnet45, gemini, gpt5 and
    total in this order and returns, in the same order, the usage of exactly
    those services whose warning or critical flag is set; no service occurs
    twice in the list. *)
Theorem checkAlerts_flagged_in_order (m : t) :
  let usage c := result (getServiceUsage c m) in
  let flagged c :=
    ServiceUsage.isWarning (usage c) || ServiceUsage.isCritical (usage c) in
  result (checkAlerts m)
  = map usage (filter flagged
                 [ServiceType.sonnet45; ServiceType.gemini; ServiceType.gpt5;
                  ServiceType.total])
  /\ map ServiceUsage.service (result (checkAlerts m))
     = filter flagged
         [ServiceType.sonnet45; ServiceType.gemini; ServiceType.gpt5;
          ServiceType.total]
  /\ NoDup (map ServiceUsage.service (result (checkAlerts m))).
Proof.
  intros usage flagged. rewrite checkAlerts_run. cbn [result fst].
  rewrite filter_map_swap.
  change (map _ (filter _ services)) with (map usage (filter flagged services)).
  change (filter flagged [ServiceType.sonnet45; ServiceType.gemini;
                          ServiceType.gpt5; ServiceType.total])
    with (filter flagged services).
  assert (Hs : map ServiceUsage.service (map usage (filter flagged services))
               = filter flagged services).
  { rewrite map_map. erewrite map_ext; [apply map_id|].
    intros c. apply service_of_getServiceUsage. }
  split; [reflexivity|]. rewrite Hs. split; [reflexivity|].
  apply NoDup_filter, NoDup_services.
Qed.

(** ** Updates *)

Lemma currentOf_updateLimits (now : Date) (p : PartialLimits.t) (m : t)
      (c : ServiceType.t) :
  currentOf (after (updateLimits now p m)) c
  = match supplied p c with Some v => v | None => currentOf m c end.
Proof. rewrite updateLimits_run. destruct c; reflexivity. Qed.

(** C5: [updateLimits] sets the counts the partial update supplies to the
    supplied values, keeps the counts it does not supply, and stamps the
    snapshot with the current time, whatever the monitor and the update;
    from 10/20/5/35 an update of gemini to 25 alone gives 10/25/5/35. *)
Theorem updateLimits_merges_supplied_fields :
  (forall (now : Date) (p : PartialLimits.t) (m : t),
      let m' := after (updateLimits now p m) in
      (forall c,
          currentOf m' c
          = match supplied p c with Some v => v | None => currentOf m c end)
      /\ CursorProLimits.lastUpdated (limits m') = now
      /\ quotas m' = quotas m
      /\ updateCallbacks m' = updateCallbacks m)
  /\ (forall (t0 now : Date) quotas callbacks,
         limits (after (updateLimits now
                          (PartialLimits.mk None (Some 25) None None None)
                          (mk (CursorProLimits.mk 10 20 5 35 t0) quotas callbacks)))
         = CursorProLimits.mk 10 25 5 35 now).
Proof.
  split.
  - intros now p m m'. subst m'. split.
    + intros c. apply currentOf_updateLimits.
    + rewrite updateLimits_run. repeat split.
  - intros t0 now quotas callbacks. rewrite updateLimits_run. reflexivity.
Qed.

(** C6: [updateTier] leaves the four counts and the time stamp of the
    snapshot as they were, whatever the monitor and the tier argument; it
    replaces the quota set by the one of the catalog, so that the percentages
    are those of the old counts against the new ceilings; and it notifies
    the way [updateLimits] does: each registered callback is called once, in
    the order of registration, with the statistics of the monitor as the
    operation leaves it. *)
Theorem updateTier_keeps_snapshot (tier : SubscriptionTier) (m : t) :
  let o := updateTier tier m in
  limits (after o) = limits m
  /\ quotas (after o) = getQuotasForTier tier
  /\ updateCallbacks (after o) = updateCallbacks m
  /\ (forall c,
         currentOf (after o) c = currentOf m c
         /\ percentageOf (after o) c
            = calculatePercentage (currentOf m c) (ceilingOf (after o) c))
  /\ calls o
     = map (fun callback => (callback, result (getUsageStats (after o))))
           (updateCallbacks m)
  /\ (forall now p,
         calls (updateLimits now p m)
         = map (fun callback =>
                  (callback,
                   result (getUsageStats (after (updateLimits now p m)))))
               (updateCallbacks m))
  /\ calls o = calls (notifyCallbacks (after o))
  /\ (forall now p,
         calls (updateLimits now p m)
         = calls (notifyCallbacks (after (updateLimits now p m)))).
Proof.
  cbv zeta. rewrite updateTier_run. cbv zeta. repeat split.
  - rewrite percentageOf_calculatePercentage. destruct c; reflexivity.
  - intros now p. rewrite updateLimits_run. reflexivity.
  - rewrite notifyCallbacks_run. reflexivity.
  - intros now p. rewrite updateLimits_run, notifyCallbacks_run. reflexivity.
Qed.

(** ** Queries *)

Lemma getCurrentTier_read_only : read_only getCurrentTier.
Proof. intros this. split; reflexivity. Qed.

Lemma checkAlerts_read_only : read_only checkAlerts.
Proof.
  unfold checkAlerts. apply read_only_bind.
  - apply read_only_mapM. exact getServiceUsage_read_only.
  - intros usages. apply read_only_ret.
Qed.

(** C8: [getUsageStats], [getServiceUsage], [checkAlerts] and
    [getCurrentTier] leave the monitor as it was and call no callback; two
    calls of [getUsageStats] in a row return the same statistics. *)
Theorem queries_are_read_only :
  read_only getUsageStats
  /\ (forall c, read_only (getServiceUsage c))
  /\ read_only checkAlerts
  /\ read_only getCurrentTier
  /\ (forall m,
         result (bind getUsageStats
                   (fun first => bind getUsageStats
                      (fun second => ret (first, second))) m)
         = (result (getUsageStats m), result (getUsageStats m))).
Proof.
  split; [exact getUsageStats_read_only|].
  split; [exact getServiceUsage_read_only|].
  split; [exact checkAlerts_read_only|].
  split; [exact getCurrentTier_read_only|].
  intros m. reflexivity.
Qed.

(** ** Observers *)

Lemma indexOf_from_first (l : list Callback) (x : Callback) (i : Z) :
  (0 <= i)%Z ->
  let index := JSArray.indexOf_from Nat.eqb l x i in
  (index = (-1)%Z /\ ~ In x l /\ remove_first x l = l)
  \/ ((i <= index)%Z
      /\ (Z.to_nat (index - i) < List.length l)%nat
      /\ firstn (Z.to_nat (index - i)) l ++ skipn (S (Z.to_nat (index - i))) l
         = remove_first x l
      /\ In x l).
Proof.
  revert i. induction l as [|y rest IH]; intros i Hi; cbn zeta.
  - left. cbn. tauto.
  - cbn [JSArray.indexOf_from remove_first].
    destruct (Nat.eqb_spec y x) as [-> | Hne].
    + right. replace (i - i)%Z with 0%Z by lia. cbn.
      repeat split; [lia | lia | now left].
    + specialize (IH (i + 1)%Z ltac:(lia)). cbn zeta in IH.
      destruct IH as [(Hidx & Hnot & Hrem) | (Hle & Hlt & Hrem & Hin)].
      * left. rewrite Hidx, Hrem. repeat split. intros [E | Hin]; tauto.
      * right.
        set (index := JSArray.indexOf_from Nat.eqb rest x (i + 1)) in *.
        replace (Z.to_nat (index - i)) with (S (Z.to_nat (index - (i + 1))))
          by lia.
        cbn [List.length]. rewrite <- Hrem.
        repeat split; [lia | lia | now right].
Qed.

Lemma splice_one (l : list Callback) (index : Z) :
  (0 <= index)%Z -> (Z.to_nat index < List.length l)%nat ->
  JSArray.splice l index 1
  = firstn (Z.to_nat index) l ++ skipn (S (Z.to_nat index)) l.
Proof.
  intros H0 Hlt. unfold JSArray.splice.
  destruct (Z.ltb_spec index 0); [lia|].
  rewrite (Z.min_l index) by lia.
  rewrite (Z.max_l 1 0) by lia.
  rewrite (Z.min_l 1) by lia.
  now replace (Z.to_nat (index + 1)) with (S (Z.to_nat index)) by lia.
Qed.

Lemma removeUpdateCallback_run (callback : Callback) (m : t) :
  removeUpdateCallback callback m
  = (tt, mk (limits m) (quotas m) (remove_first callback (updateCallbacks m)),
     []).
Proof.
  unfold removeUpdateCallback, bind.
  change (result (read updateCallbacks m)) with (updateCallbacks m).
  change (after (read updateCallbacks m)) with m.
  unfold JSArray.indexOf.
  destruct (indexOf_from_first (updateCallbacks m) callback 0 ltac:(lia))
    as [(Hidx & _ & Hrem) | (Hle & Hlt & Hrem & _)]; cbn zeta in *.
  - rewrite Hidx, Hrem. destruct m; reflexivity.
  - set (index := JSArray.indexOf_from Nat.eqb (updateCallbacks m) callback 0)
      in *.
    rewrite Z.sub_0_r in Hlt, Hrem.
    destruct (Z.gtb_spec index (-1)); [|lia].
    rewrite splice_one by assumption. rewrite Hrem. reflexivity.
Qed.

Lemma remove_first_absent (callback : Callback) (l : list Callback) :
  ~ In callback l -> remove_first callback l = l.
Proof.
  induction l as [|x rest IH]; [reflexivity|]. intros Hnot.
  cbn [remove_first]. destruct (Nat.eqb_spec x callback) as [-> | Hne].
  - exfalso. apply Hnot. now left.
  - f_equal. apply IH. intros Hin. apply Hnot. now right.
Qed.

Lemma remove_first_split (callback : Callback) (before rest : list Callback) :
  ~ In callback before ->
  remove_first callback (before ++ callback :: rest) = before ++ rest.
Proof.
  induction before as [|x before IH]; intros Hnot; cbn [app remove_first].
  - now rewrite Nat.eqb_refl.
  - destruct (Nat.eqb_spec x callback) as [-> | Hne].
    + exfalso. apply Hnot. now left.
    + f_equal. apply IH. intros Hin. apply Hnot. now right.
Qed.

Lemma remove_first_In (callback x : Callback) (l : list Callback) :
  In x (remove_first callback l) -> In x l.
Proof.
  induction l as [|y rest IH]; [easy|]. cbn [remove_first].
  destruct (Nat.eqb y callback).
  - intros Hin. now right.
  - intros [-> | Hin]; [now left | right; now apply IH].
Qed.

Lemma remove_first_last (callback : Callback) (l : list Callback) :
  (count_occ Nat.eq_dec l callback <= 1)%nat ->
  ~ In callback (remove_first callback l).
Proof.
  induction l as [|x rest IH]; [easy|]. cbn [remove_first count_occ].
  destruct (Nat.eq_dec x callback) as [-> | Hne].
  - rewrite Nat.eqb_refl. intros Hc.
    apply (count_occ_not_In Nat.eq_dec). lia.
  - destruct (Nat.eqb_spec x callback) as [E | _]; [contradiction|].
    intros Hc [E | Hin]; [contradiction | now apply IH].
Qed.

Lemma perform_observers (op : Operation) (m : t) :
  map fst (calls (perform op m))
  = match op with
    | UpdateLimits _ _ | UpdateTier _ => updateCallbacks m
    | _ => []
    end
  /\ updateCallbacks (after (perform op m))
     = match op with
       | OnUpdate callback => updateCallbacks m ++ [callback]
       | RemoveUpdateCallback callback =>
           remove_first callback (updateCallbacks m)
       | _ => updateCallbacks m
       end.
Proof.
  destruct op as [now p|tier|cb|cb| |s| |]; cbn [perform].
  - rewrite updateLimits_run. cbv zeta. cbn [calls after fst snd].
    rewrite map_map. cbn [fst]. now rewrite map_id.
  - rewrite updateTier_run. cbv zeta. cbn [calls after fst snd].
    rewrite map_map. cbn [fst]. now rewrite map_id.
  - split; reflexivity.
  - rewrite removeUpdateCallback_run. split; reflexivity.
  - split; reflexivity.
  - split; reflexivity.
  - split; reflexivity.
  - split; reflexivity.
Qed.

Lemma run_notifies (ops : list Operation) (m : t) :
  map fst (calls (run ops m)) = notified ops (updateCallbacks m).
Proof.
  revert m. induction ops as [|op ops IH]; intros m; [reflexivity|].
  rewrite (proj2 (run_cons op ops m)), map_app, IH.
  destruct (perform_observers op m) as [Hc Hr]. rewrite Hr.
  etransitivity; [apply (f_equal (fun l => l ++ _)); exact Hc|].
  destruct op; reflexivity.
Qed.

Lemma notified_absent (ops : list Operation) (callback : Callback)
      (registered : list Callback) :
  ~ In callback registered -> ~ In (OnUpdate callback) ops ->
  ~ In callback (notified ops registered).
Proof.
  revert registered.
  induction ops as [|op ops IH]; intros registered Hreg Hops; [easy|].
  assert (Hrest : ~ In (OnUpdate callback) ops)
    by (intros Hin; apply Hops; now right).
  destruct op as [now p|tier|cb|cb| |s| |]; cbn [notified];
    try (now apply IH).
  - intros Hin. apply in_app_or in Hin. destruct Hin as [Hin | Hin];
      [contradiction | now apply (IH registered)].
  - intros Hin. apply in_app_or in Hin. destruct Hin as [Hin | Hin];
      [contradiction | now apply (IH registered)].
  - apply IH; [|exact Hrest]. intros Hin. apply in_app_or in Hin.
    destruct Hin as [Hin | [E | []]]; [contradiction|].
    apply Hops. left. now rewrite E.
  - apply IH; [|exact Hrest]. intros Hin. apply Hreg.
    now apply remove_first_In in Hin.
Qed.



(** ** Totality *)

(** ** Operations and callbacks that throw *)

Lemma attempted_all_return (behaviour : Throwing.Behaviour)
      (notifications : list Call) :
  (forall callback stats,
      In (callback, stats) notifications -> behaviour callback stats = None) ->
  Throwing.attempted behaviour notifications
  = (Throwing.Returns tt, notifications).
Proof.
  induction notifications as [|[callback stats] rest IH]; intros H;
    [reflexivity|].
  cbn [Throwing.attempted]. rewrite (H callback stats) by now left.
  rewrite IH; [reflexivity|]. intros c s Hin. apply H. now right.
Qed.

Lemma attempted_throws (behaviour : Throwing.Behaviour)
      (notifications : list Call) (e : Throwing.Thrown) :
  fst (Throwing.attempted behaviour notifications) = Throwing.Throws e ->
  exists before callback stats later,
    notifications = before ++ (callback, stats) :: later
    /\ (forall c s, In (c, s) before -> behaviour c s = None)
    /\ behaviour callback stats = Some e
    /\ snd (Throwing.attempted behaviour notifications)
       = before ++ [(callback, stats)].
Proof.
  induction notifications as [|[callback stats] rest IH];
    cbn [Throwing.attempted]; [discriminate|].
  destruct (behaviour callback stats) as [e'|] eqn:E; cbn [fst snd].
  - intros H. injection H as ->. exists [], callback, stats, rest.
    repeat split; [intros c s []| exact E].
  - intros H. destruct (IH H) as (before & cb & st & later & -> & Hb & Hcb & Hs).
    exists ((callback, stats) :: before), cb, st, later.
    repeat split.
    + intros c s [Heq | Hin]; [injection Heq as <- <-; exact E | now apply Hb].
    + exact Hcb.
    + cbn [app]. now rewrite Hs.
Qed.

Lemma forEach_attempted (behaviour : Throwing.Behaviour)
      (l : list Callback) (stats : UsageStats.t) (this : t) :
  let notifications := map (fun callback => (callback, stats)) l in
  Throwing.forEach l (fun callback => Throwing.call behaviour callback stats)
                   this
  = (fst (Throwing.attempted behaviour notifications), this,
     snd (Throwing.attempted behaviour notifications)).
Proof.
  cbv zeta. induction l as [|x rest IH]; [reflexivity|].
  cbn [Throwing.forEach map Throwing.attempted]. unfold Throwing.bind.
  change (after (Throwing.call behaviour x stats this)) with this.
  change (calls (Throwing.call behaviour x stats this)) with [(x, stats)].
  change (result (Throwing.call behaviour x stats this))
    with (match behaviour x stats with
          | None => Throwing.Returns tt
          | Some e => Throwing.Throws e
          end).
  destruct (behaviour x stats) as [e|]; [reflexivity|].
  rewrite IH. reflexivity.
Qed.

Lemma notifyCallbacks_attempted (behaviour : Throwing.Behaviour) (this : t) :
  Throwing.notifyCallbacks behaviour this
  = (fst (Throwing.attempted behaviour (calls (notifyCallbacks this))), this,
     snd (Throwing.attempted behaviour (calls (notifyCallbacks this)))).
Proof.
  rewrite notifyCallbacks_run. cbn [calls snd].
  unfold Throwing.notifyCallbacks, Throwing.bind, Throwing.lift.
  unfold result, after, calls. cbn [fst snd].
  change (fst (fst (read updateCallbacks this))) with (updateCallbacks this).
  change (snd (fst (read updateCallbacks this))) with this.
  change (snd (fst (getUsageStats this))) with this.
  change (snd (getUsageStats this)) with (@nil Call).
  change (snd (read updateCallbacks this)) with (@nil Call).
  rewrite forEach_attempted. cbv zeta. reflexivity.
Qed.

Lemma lift_read_only {A : Type} (f : CursorLimitsMonitor.Method A) (m : t) :
  read_only f ->
  Throwing.bind (Throwing.lift f) (fun _ => Throwing.ret tt) m
  = (Throwing.Returns tt, m, [])
  /\ bind f (fun _ => ret tt) m = (tt, m, []).
Proof.
  intros H. destruct (H m) as [Ha Hc].
  unfold Throwing.bind, Throwing.lift, Throwing.ret, bind, ret.
  unfold result, after, calls in *. cbn [fst snd].
  rewrite Ha, Hc. split; reflexivity.
Qed.

Lemma bind_lift {A B : Type} (f : CursorLimitsMonitor.Method A)
      (k : A -> Throwing.Method B) (m : t) :
  Throwing.bind (Throwing.lift f) k m
  = (result (k (result (f m)) (after (f m))),
     after (k (result (f m)) (after (f m))),
     calls (f m) ++ calls (k (result (f m)) (after (f m)))).
Proof. reflexivity. Qed.

(** What an operation does when its callbacks may throw, in terms of what
    it does when they return. *)
Lemma perform_attempted (behaviour : Throwing.Behaviour) (op : Operation)
      (m : t) :
  Throwing.perform behaviour op m
  = (fst (Throwing.attempted behaviour (calls (perform op m))),
     after (perform op m),
     snd (Throwing.attempted behaviour (calls (perform op m)))).
Proof.
  destruct op as [now p|tier|cb|cb| |s| |];
    cbn [Throwing.perform perform].
  - rewrite updateLimits_run. cbv zeta. cbn [after calls fst snd].
    unfold Throwing.updateLimits. rewrite bind_lift, bind_lift.
    rewrite notifyCallbacks_attempted, notifyCallbacks_run. reflexivity.
  - rewrite updateTier_run. cbv zeta. cbn [after calls fst snd].
    unfold Throwing.updateTier. rewrite bind_lift.
    rewrite notifyCallbacks_attempted, notifyCallbacks_run. reflexivity.
  - reflexivity.
  - unfold Throwing.lift. rewrite removeUpdateCallback_run. reflexivity.
  - destruct (lift_read_only getUsageStats m getUsageStats_read_only)
      as [-> ->]. reflexivity.
  - destruct (lift_read_only _ m (getServiceUsage_read_only s)) as [-> ->].
    reflexivity.
  - destruct (lift_read_only checkAlerts m checkAlerts_read_only)
      as [-> ->]. reflexivity.
  - destruct (lift_read_only getCurrentTier m getCurrentTier_read_only)
      as [-> ->]. reflexivity.
Qed.

Lemma called_is_registered (op : Operation) (m : t) (callback : Callback)
      (stats : UsageStats.t) :
  In (callback, stats) (calls (perform op m)) ->
  In callback (updateCallbacks m).
Proof.
  intros Hin. apply (in_map fst) in Hin. cbn [fst] in Hin.
  rewrite (proj1 (perform_observers op m)) in Hin.
  destruct op; try exact Hin; contradiction.
Qed.




(** ** Further properties of the monitor *)

Lemma onUpdate_run (callback : Callback) (m : t) :
  onUpdate callback m
  = (tt, mk (limits m) (quotas m) (updateCallbacks m ++ [callback]), []).
Proof. reflexivity. Qed.

Lemma map_fst_calls {A : Type} (l : list Callback) (stats : A) :
  map fst (map (fun callback => (callback, stats)) l) = l.
Proof. rewrite map_map. cbn [fst]. apply map_id. Qed.


Lemma remove_first_app_last (callback : Callback) (l : list Callback) :
  remove_first callback (l ++ [callback])
  = if in_dec Nat.eq_dec callback l
    then remove_first callback l ++ [callback]
    else l.
Proof.
  induction l as [|x rest IH]; cbn [app remove_first].
  - now rewrite Nat.eqb_refl.
  - destruct (Nat.eqb_spec x callback) as [-> | Hne].
    + destruct (in_dec Nat.eq_dec callback (callback :: rest)) as [_ | Hn];
        [reflexivity|]. exfalso. apply Hn. now left.
    + rewrite IH.
      destruct (in_dec Nat.eq_dec callback rest) as [Hin | Hnin],
        (in_dec Nat.eq_dec callback (x :: rest)) as [Hin' | Hnin'];
        try reflexivity.
      * exfalso. apply Hnin'. now right.
      * destruct Hin' as [E | Hin']; [contradiction | contradiction].
Qed.

Lemma count_occ_remove_first (callback other : Callback) (l : list Callback) :
  count_occ Nat.eq_dec (remove_first callback l) other
  = (count_occ Nat.eq_dec l other
     - if Nat.eq_dec callback other then 1 else 0)%nat.
Proof.
  induction l as [|x rest IH]; [reflexivity|]. cbn [remove_first count_occ].
  destruct (Nat.eqb_spec x callback) as [-> | Hne].
  - destruct (Nat.eq_dec callback other); lia.
  - cbn [count_occ]. rewrite IH.
    destruct (Nat.eq_dec x other), (Nat.eq_dec callback other);
      first [lia | congruence].
Qed.

(** X2: registering a callback and removing it again leaves the counts and
    the quotas alone and every callback registered as often as before;
    the monitor is the same when the callback was not registered before,
    and otherwise it is the older registration that goes, the new one
    staying at the end of the list. *)
Theorem onUpdate_then_removeUpdateCallback (callback : Callback) (m : t) :
  let m' := after (removeUpdateCallback callback (after (onUpdate callback m))) in
  limits m' = limits m /\ quotas m' = quotas m
  /\ (forall other,
         count_occ Nat.eq_dec (updateCallbacks m') other
         = count_occ Nat.eq_dec (updateCallbacks m) other)
  /\ (~ In callback (updateCallbacks m) -> m' = m)
  /\ (In callback (updateCallbacks m) ->
      updateCallbacks m'
      = remove_first callback (updateCallbacks m) ++ [callback]).
Proof.
  cbv zeta. rewrite onUpdate_run. cbn [after fst snd].
  rewrite removeUpdateCallback_run. cbn [after fst snd limits quotas updateCallbacks].
  rewrite remove_first_app_last.
  repeat apply conj; try reflexivity.
  - intros other.
    destruct (in_dec Nat.eq_dec callback (updateCallbacks m)) as [Hin | _];
      [|reflexivity].
    rewrite count_occ_app, count_occ_remove_first. cbn [count_occ].
    destruct (Nat.eq_dec callback other) as [<- | _]; [|lia].
    apply (count_occ_In Nat.eq_dec) in Hin. lia.
  - intros Hnot.
    destruct (in_dec Nat.eq_dec callback (updateCallbacks m)) as [Hin | _];
      [contradiction | destruct m; reflexivity].
  - intros Hin.
    destruct (in_dec Nat.eq_dec callback (updateCallbacks m)) as [_ | Hnot];
      [reflexivity | contradiction].
Qed.

Lemma onUpdate_then_removeUpdateCallback_witness :
  after (removeUpdateCallback 3%nat
           (after (onUpdate 3%nat (registered_monitor [1; 2]%nat))))
  = registered_monitor [1; 2]%nat
  /\ updateCallbacks
       (after (removeUpdateCallback 1%nat
                 (after (onUpdate 1%nat (registered_monitor [1; 2]%nat)))))
     = [2; 1]%nat.
Proof.
  split.
  - apply (onUpdate_then_removeUpdateCallback 3%nat
             (registered_monitor [1; 2]%nat)).
    cbn. intuition discriminate.
  - apply (onUpdate_then_removeUpdateCallback 1%nat
             (registered_monitor [1; 2]%nat)).
    cbn. now left.
Defined.


Lemma getQuotasForTier_fallback (tier : SubscriptionTier) :
  ~ In tier tier_names -> getQuotasForTier tier = getQuotasForTier "pro".
Proof.
  intros Hnot. unfold getQuotasForTier.
  destruct (String.eqb_spec tier "pro") as [-> | _]; [reflexivity|].
  destruct (String.eqb_spec tier "pro-plus") as [-> | _].
  { exfalso. apply Hnot. cbn. tauto. }
  destruct (String.eqb_spec tier "ultra") as [-> | _]; [|reflexivity].
  exfalso. apply Hnot. cbn. tauto.
Qed.

(** X4: of two calls of [updateTier] in a row the later decides, so that
    calling it twice with one tier is calling it once; a tier change and a
    usage update leave the same monitor in either order; a tier argument
    that is none of the three names leaves the quotas of 'pro'. *)
Theorem updateTier_composes (tier1 tier2 : SubscriptionTier) (m : t) :
  after (updateTier tier2 (after (updateTier tier1 m)))
  = after (updateTier tier2 m)
  /\ after (updateTier tier1 (after (updateTier tier1 m)))
     = after (updateTier tier1 m)
  /\ (forall now p,
         after (updateTier tier1 (after (updateLimits now p m)))
         = after (updateLimits now p (after (updateTier tier1 m))))
  /\ (~ In tier1 tier_names ->
      after (updateTier tier1 m) = after (updateTier "pro" m)).
Proof.
  rewrite !updateTier_run. cbv zeta. cbn [after fst snd limits quotas updateCallbacks].
  repeat apply conj; try reflexivity.
  - intros now p. rewrite !updateLimits_run. cbv zeta.
    rewrite updateTier_run. reflexivity.
  - intros Hnot. f_equal.
    apply getQuotasForTier_fallback. exact Hnot.
Qed.

Lemma updateTier_composes_witness :
  after (updateTier "enterprise"%string (registered_monitor [1]%nat))
  = after (updateTier "pro"%string (registered_monitor [1]%nat)).
Proof.
  apply (updateTier_composes "enterprise"%string "pro"%string (registered_monitor [1]%nat)).
  cbn. intuition discriminate.
Defined.

Lemma getQuotasForTier_row (tier : SubscriptionTier) :
  catalog_row (getQuotasForTier tier).
Proof.
  destruct (getQuotasForTier_cases tier) as [-> | [-> | ->]];
    (split; [cbn; tauto | reflexivity]).
Qed.

Lemma perform_quotas (op : Operation) (m : t) :
  quotas (after (perform op m))
  = match op with
    | UpdateTier tier => getQuotasForTier tier
    | _ => quotas m
    end.
Proof.
  destruct op; cbn [perform]; try reflexivity.
  - now rewrite updateLimits_run.
  - now rewrite updateTier_run.
  - now rewrite removeUpdateCallback_run.
Qed.

Lemma run_catalog_row (ops : list Operation) (m : t) :
  catalog_row (quotas m) -> catalog_row (quotas (after (run ops m))).
Proof.
  revert m. induction ops as [|op ops IH]; intros m Hm; [exact Hm|].
  rewrite (proj1 (run_cons op ops m)). apply IH. rewrite perform_quotas.
  destruct op; try exact Hm. apply getQuotasForTier_row.
Qed.

Lemma reached_catalog_row (m : t) : reached m -> catalog_row (quotas m).
Proof.
  intros (now & tier & ops & ->). apply run_catalog_row.
  apply getQuotasForTier_row.
Qed.

Lemma reached_quotas_of_catalog (m : t) : reached m -> quotas_of_catalog m.
Proof.
  intros H. exists (CursorProQuotas.tier (quotas m)).
  apply (reached_catalog_row m H).
Qed.

(** X5: in every monitor that the constructor and the operations produce,
    whatever tier arguments they were given, the quotas are those of the
    catalogue for the tier that [getCurrentTier] answers, which is one of
    the three names; the aggregate ceiling is the sum of the three category
    ceilings, and no ceiling is zero, so that [calculatePercentage] never
    takes its zero-ceiling branch there. *)
Theorem reached_quotas_consistent (m : t) :
  reached m ->
  In (result (getCurrentTier m)) tier_names
  /\ quotas m = getQuotasForTier (result (getCurrentTier m))
  /\ CursorProQuotas.maxTotalRequests (quotas m)
     = CursorProQuotas.maxSonnet45Requests (quotas m)
       + CursorProQuotas.maxGeminiRequests (quotas m)
       + CursorProQuotas.maxGpt5Requests (quotas m)
  /\ (forall c, (ceilingOf m c =? 0) = false)
  /\ (forall c,
         percentageOf m c
         = Math.min 100 (currentOf m c / ceilingOf m c * 100)).
Proof.
  intros Hm. destruct (reached_catalog_row m Hm) as [Hin Hrow].
  change (result (getCurrentTier m)) with (CursorProQuotas.tier (quotas m)).
  assert (Hnz : forall c, (ceilingOf m c =? 0) = false).
  { intros c. apply Binary64.positive_finite_not_zero, ceiling_positive.
    apply reached_quotas_of_catalog, Hm. }
  repeat apply conj; try assumption.
  - destruct (getQuotasForTier_cases (CursorProQuotas.tier (quotas m)))
      as [E | [E | E]]; rewrite Hrow, E; reflexivity.
  - intros c. rewrite percentageOf_calculatePercentage.
    unfold calculatePercentage. now rewrite Hnz.
Qed.

Lemma reached_quotas_consistent_witness :
  In (result (getCurrentTier
                (after (run [UpdateTier "enterprise"%string] (new 0 (Some "ultra"%string))))))
     tier_names.
Proof.
  apply (reached_quotas_consistent
           (after (run [UpdateTier "enterprise"%string] (new 0 (Some "ultra"%string))))).
  exists 0%Z, (Some "ultra"%string), [UpdateTier "enterprise"%string]. reflexivity.
Defined.

Lemma ceilingOf_cases (m : t) (c : ServiceType.t) :
  quotas_of_catalog m ->
  In (ceilingOf m c)
     [225; 550; 500; 1275; 675; 1650; 1500; 3825; 4500; 11000; 10000; 25500].
Proof.
  intros (tier & Hq). unfold ceilingOf.
  destruct c; cbn; rewrite Hq;
    destruct (getQuotasForTier_cases tier) as [-> | [-> | ->]]; cbn; tauto.
Qed.

(** X6: a service whose count is zero, in a monitor that the constructor
    and the operations produce, stands at 0 percent with its whole ceiling
    remaining and neither flag set; a new monitor of any tier reports no
    alert. *)
Theorem unused_service_is_clear (m : t) (c : ServiceType.t) :
  reached m -> currentOf m c = 0 ->
  percentageOf m c = 0
  /\ remainingOf m c = ceilingOf m c
  /\ ServiceUsage.isWarning (result (getServiceUsage c m)) = false
  /\ ServiceUsage.isCritical (result (getServiceUsage c m)) = false
  /\ (forall now tier, result (checkAlerts (new now tier)) = []).
Proof.
  intros Hm Hzero.
  pose proof (ceilingOf_cases m c (reached_quotas_of_catalog m Hm)) as Hc.
  destruct (getServiceUsage_flags m c) as [-> ->].
  rewrite percentageOf_calculatePercentage, remainingOf_max, Hzero.
  repeat apply conj.
  1-4: cbn [In] in Hc; repeat (destruct Hc as [<- | Hc]; [reflexivity|]);
    contradiction.
  intros now tier. rewrite checkAlerts_run. cbn [result fst].
  unfold new.
  destruct (getQuotasForTier_cases
              match tier with Some v => v | None => "pro"%string end)
    as [-> | [-> | ->]]; reflexivity.
Qed.

Lemma unused_service_is_clear_witness :
  remainingOf (after (run [UpdateLimits 1 (only ServiceType.gemini 40)]
                          (new 0 None))) ServiceType.gpt5
  = 500.
Proof.
  apply (unused_service_is_clear
           (after (run [UpdateLimits 1 (only ServiceType.gemini 40)]
                       (new 0 None))) ServiceType.gpt5).
  - exists 0%Z, None, [UpdateLimits 1 (only ServiceType.gemini 40)].
    reflexivity.
  - reflexivity.
Defined.

Lemma In_services (c : ServiceType.t) : In c services.
Proof. destruct c; cbn; tauto. Qed.

(** X7: in a monitor reached without negative counts, a service whose
    count has reached its ceiling has nothing remaining, stands at 100
    percent with both flags set and is among the alerts; a service whose
    count is below its ceiling has a remaining amount above zero, the
    rounded difference of ceiling and count. *)
Theorem remaining_zero_when_exhausted (m : t) (c : ServiceType.t) :
  reached_nonnegative m ->
  ((ceilingOf m c <=? currentOf m c) = true ->
   remainingOf m c = 0
   /\ percentageOf m c = 100
   /\ ServiceUsage.isWarning (result (getServiceUsage c m)) = true
   /\ ServiceUsage.isCritical (result (getServiceUsage c m)) = true
   /\ In (result (getServiceUsage c m)) (result (checkAlerts m)))
  /\ ((currentOf m c <? ceilingOf m c) = true ->
      remainingOf m c = ceilingOf m c - currentOf m c
      /\ (0 <? remainingOf m c) = true).
Proof.
  intros Hm. destruct (reached_nonnegative_keeps m Hm) as [Hcount Hcat].
  pose proof (ceiling_positive m c Hcat) as Hpos.
  specialize (Hcount c). split.
  - intros Hle.
    assert (Hp : percentageOf m c = 100).
    { rewrite percentageOf_calculatePercentage.
      now apply Binary64.calculatePercentage_bounds. }
    destruct (getServiceUsage_flags m c) as [Hw Hcr].
    rewrite Hp in Hw, Hcr.
    repeat apply conj; try assumption.
    + rewrite remainingOf_max. apply Binary64.max_0_of_at_most_zero.
      now apply Binary64.sub_at_most_zero.
    + rewrite checkAlerts_run. cbn [result fst]. apply filter_In. split.
      * apply (in_map (fun c => result (getServiceUsage c m))), In_services.
      * rewrite Hw. reflexivity.
  - intros Hlt.
    pose proof (Binary64.sub_positive _ _ Hpos Hcount Hlt) as Hd.
    rewrite remainingOf_max, Binary64.max_0_of_positive by exact Hd.
    split; [reflexivity | exact Hd].
Qed.

Lemma remaining_zero_when_exhausted_witness :
  remainingOf (after (run [UpdateLimits 1 (only ServiceType.gemini 600)]
                          (new 0 None))) ServiceType.gemini = 0
  /\ (0 <? remainingOf (after (run [UpdateLimits 1 (only ServiceType.gemini 600)]
                                   (new 0 None))) ServiceType.gpt5) = true.
Proof.
  assert (H : reached_nonnegative
                (after (run [UpdateLimits 1 (only ServiceType.gemini 600)]
                            (new 0 None)))).
  { exists 0%Z, None, [UpdateLimits 1 (only ServiceType.gemini 600)].
    split; [|reflexivity]. constructor; [|constructor].
    intros [] v E; inversion E. reflexivity. }
  split.
  - apply (proj1 (remaining_zero_when_exhausted _ ServiceType.gemini H)).
    reflexivity.
  - apply (proj2 (remaining_zero_when_exhausted _ ServiceType.gpt5 H)).
    reflexivity.
Defined.

(** X8: [checkAlerts] returns the usage of exactly the services whose
    warning flag is set, in the order sonnet45, gemini, gpt5, total: the
    critical flag never adds an entry. *)
Theorem checkAlerts_is_warning_filter (m : t) :
  result (checkAlerts m)
  = filter ServiceUsage.isWarning
      (map (fun c => result (getServiceUsage c m)) services)
  /\ (forall c,
         In (result (getServiceUsage c m)) (result (checkAlerts m))
         <-> ServiceUsage.isWarning (result (getServiceUsage c m)) = true).
Proof.
  assert (Hsame : forall c,
             ServiceUsage.isWarning (result (getServiceUsage c m))
             || ServiceUsage.isCritical (result (getServiceUsage c m))
             = ServiceUsage.isWarning (result (getServiceUsage c m))).
  { intros c. destruct (getServiceUsage_flags m c) as [Hw Hc].
    destruct (ServiceUsage.isCritical (result (getServiceUsage c m))) eqn:Ec;
      [|apply orb_false_r].
    rewrite orb_true_r. symmetry. rewrite Hw.
    apply Binary64.leb_trans_positive with (b := 0.95);
      try reflexivity; try (eexists; eexists; reflexivity).
    now rewrite <- Hc. }
  assert (Heq : result (checkAlerts m)
                = filter ServiceUsage.isWarning
                    (map (fun c => result (getServiceUsage c m)) services)).
  { rewrite checkAlerts_run. cbn [result fst].
    apply filter_ext_in. intros usage Hin.
    apply in_map_iff in Hin. destruct Hin as (c & <- & _). apply Hsame. }
  split; [exact Heq|].
  intros c. rewrite Heq, filter_In. split; [tauto|].
  intros Hw.
  split; [apply (in_map (fun c => result (getServiceUsage c m))), In_services
         | exact Hw].
Qed.

(** X9: an update that supplies the count of one service changes nothing
    of what [getServiceUsage] reports for any other service; in particular
    the aggregate count is stored, not recomputed from the categories. *)
Theorem updateLimits_other_services (now : Date) (c c' : ServiceType.t)
        (v : number) (m : t) :
  c' <> c ->
  result (getServiceUsage c' (after (updateLimits now (only c v) m)))
  = result (getServiceUsage c' m).
Proof.
  intros Hne. rewrite updateLimits_run.
  destruct c, c'; try contradiction; reflexivity.
Qed.

Lemma updateLimits_other_services_witness :
  result (getServiceUsage ServiceType.total
            (after (updateLimits 1 (only ServiceType.sonnet45 200)
                      (registered_monitor []))))
  = result (getServiceUsage ServiceType.total (registered_monitor [])).
Proof.
  apply (updateLimits_other_services 1%Z ServiceType.sonnet45 ServiceType.total
           200 (registered_monitor [])).
  discriminate.
Defined.

(** X10: a callback is called with the statistics of the monitor as the
    operation leaves it, the ones [getUsageStats] returns right after, and
    only a registered callback is called. *)
Theorem callbacks_receive_new_statistics (op : Operation) (m : t)
        (callback : Callback) (stats : UsageStats.t) :
  In (callback, stats) (calls (perform op m)) ->
  stats = result (getUsageStats (after (perform op m)))
  /\ In callback (updateCallbacks m).
Proof.
  intros Hin.
  assert (Hquery : map fst (calls (perform op m)) = [] -> False).
  { intros E. apply map_eq_nil in E. rewrite E in Hin. exact Hin. }
  destruct op as [now p|tier|cb|cb| |s| |];
    try (exfalso; apply Hquery; exact (proj1 (perform_observers _ m))).
  - cbn [perform] in *. rewrite updateLimits_run in *. cbv zeta in *.
    cbn [calls after fst snd] in *. apply in_map_iff in Hin.
    destruct Hin as (cb & E & Hcb). injection E as <- <-. now split.
  - cbn [perform] in *. rewrite updateTier_run in *. cbv zeta in *.
    cbn [calls after fst snd] in *. apply in_map_iff in Hin.
    destruct Hin as (cb & E & Hcb). injection E as <- <-. now split.
Qed.

Lemma callbacks_receive_new_statistics_witness :
  result (getUsageStats
            (after (updateLimits 1 (only ServiceType.gemini 40)
                      (registered_monitor [7]%nat))))
  = result (getUsageStats
              (after (perform (UpdateLimits 1 (only ServiceType.gemini 40))
                        (registered_monitor [7]%nat))))
  /\ In 7%nat (updateCallbacks (registered_monitor [7]%nat)).
Proof.
  apply (callbacks_receive_new_statistics
           (UpdateLimits 1 (only ServiceType.gemini 40))
           (registered_monitor [7]%nat) 7%nat).
  left. reflexivity.
Defined.

(** ** Facts about the MCP server *)

Lemma try_catch_run {A : Type} (body : Server.Async A)
      (handler : Server.Exception -> A) (m : t) :
  Server.try_catch body (fun error => ret (handler error)) m
  = (match result (body m) with
     | Server.Returned a => a
     | Server.Thrown error => handler error
     end, after (body m), calls (body m)).
Proof.
  unfold Server.try_catch, bind, result, after, calls, ret.
  destruct (body m) as [[[a | e] m'] c]; cbn [fst snd];
    now rewrite app_nil_r.
Qed.

Lemma read_only_run {A : Type} (f : Method A) (m : t) :
  read_only f -> f m = (result (f m), m, []).
Proof.
  intros H. destruct (H m) as [Ha Hc]. unfold after, calls, result in *.
  destruct (f m) as [[a m'] c]. cbn [fst snd] in *. now subst.
Qed.

Lemma handleGetUsageStats_read_only (engine : Engine.t) :
  read_only (Server.handleGetUsageStats engine).
Proof.
  unfold Server.handleGetUsageStats.
  apply read_only_bind; [apply getUsageStats_read_only|].
  intros stats. apply read_only_ret.
Qed.

Lemma handleGetServiceUsage_read_only (engine : Engine.t)
      (args : option ToolArguments.t) :
  read_only (Server.handleGetServiceUsage engine args).
Proof.
  unfold Server.handleGetServiceUsage.
  destruct args as [args|]; [|apply read_only_ret].
  destruct (ToolArguments.service args) as [service|]; [|apply read_only_ret].
  destruct (negb _); [apply read_only_ret|].
  apply read_only_bind; [apply getServiceUsage_read_only|].
  intros usage. apply read_only_ret.
Qed.

Lemma handleCheckAlerts_read_only (engine : Engine.t) :
  read_only (Server.handleCheckAlerts engine).
Proof.
  unfold Server.handleCheckAlerts.
  apply read_only_bind; [apply checkAlerts_read_only|].
  intros alerts. destruct (Nat.eqb _ _); apply read_only_ret.
Qed.

Lemma handleGetSubscriptionInfo_read_only (engine : Engine.t) :
  read_only (Server.handleGetSubscriptionInfo engine).
Proof.
  unfold Server.handleGetSubscriptionInfo.
  apply read_only_bind; [apply getCurrentTier_read_only|]. intros tier.
  apply read_only_bind; [apply getUsageStats_read_only|].
  intros stats. apply read_only_ret.
Qed.

Lemma handleUpdateUsage_run (engine : Engine.t) :
  exists text,
    forall now args m,
      Server.handleUpdateUsage engine now (Some args) m
      = (Server.Returned (Server.text_content text),
         after (updateLimits now (Server.supplied_counts args) m),
         calls (updateLimits now (Server.supplied_counts args) m)).
Proof.
  eexists. intros now args m.
  unfold Server.handleUpdateUsage, Server.supplied_counts.
  destruct args as [s t [a|] [b|] [c|] [d|]]; cbv zeta;
    cbn [ToolArguments.sonnet45Requests ToolArguments.geminiRequests
         ToolArguments.gpt5Requests ToolArguments.totalRequests];
    unfold bind, Server.resolve, ret, result, after, calls; cbn [fst snd];
    rewrite app_nil_r; reflexivity.
Qed.

Lemma includes_In (array : list string) (s : string) :
  Server.includes array s = true <-> In s array.
Proof.
  unfold Server.includes. rewrite existsb_exists. split.
  - intros (x & Hin & E). apply String.eqb_eq in E. now subst.
  - intros Hin. exists s. split; [exact Hin | apply String.eqb_refl].
Qed.

Lemma handleSetSubscriptionTier_valid (engine : Engine.t)
      (args : ToolArguments.t) (tier : string) (m : t) :
  ToolArguments.tier args = Some tier -> In tier tier_names ->
  exists text,
    Server.handleSetSubscriptionTier engine (Some args) m
    = (Server.Returned (Server.text_content text),
       after (updateTier tier m), calls (updateTier tier m)).
Proof.
  intros Ht Hin. apply includes_In in Hin. unfold tier_names in Hin.
  eexists. unfold Server.handleSetSubscriptionTier. rewrite Ht, Hin.
  cbn [negb]. unfold bind.
  rewrite (read_only_run getUsageStats _ getUsageStats_read_only).
  unfold Server.resolve, ret, result, after, calls. cbn [fst snd].
  rewrite !app_nil_r. reflexivity.
Qed.

Lemma handleSetSubscriptionTier_invalid (engine : Engine.t)
      (args : ToolArguments.t) (m : t) :
  (forall tier, ToolArguments.tier args = Some tier -> ~ In tier tier_names) ->
  Server.handleSetSubscriptionTier engine (Some args) m
  = (Server.Thrown
       (Server.Error "Invalid tier. Must be one of: pro, pro-plus, ultra"),
     m, []).
Proof.
  intros Hnot. unfold Server.handleSetSubscriptionTier.
  destruct (ToolArguments.tier args) as [tier|]; [|reflexivity].
  destruct (Server.includes _ tier) eqn:E; [|reflexivity].
  apply includes_In in E. exfalso. now apply (Hnot tier).
Qed.

Lemma as_service_token (c : ServiceType.t) :
  Server.as_service (Server.token c) = c.
Proof. destruct c; reflexivity. Qed.

Lemma includes_services (s : string) :
  Server.includes ["sonnet45"; "gemini"; "gpt5"; "total"]%string s = true
  <-> exists c, s = Server.token c.
Proof.
  rewrite includes_In. cbn [In]. split.
  - intros [<- | [<- | [<- | [<- | []]]]];
      [exists ServiceType.sonnet45 | exists ServiceType.gemini
       | exists ServiceType.gpt5 | exists ServiceType.total]; reflexivity.
  - intros ([] & ->); cbn; tauto.
Qed.

Lemma handleGetServiceUsage_invalid (engine : Engine.t)
      (args : ToolArguments.t) (m : t) :
  (forall c, ToolArguments.service args <> Some (Server.token c)) ->
  Server.handleGetServiceUsage engine (Some args) m
  = (Server.Thrown
       (Server.Error
          "Invalid service. Must be one of: sonnet45, gemini, gpt5, total"),
     m, []).
Proof.
  intros Hnot. unfold Server.handleGetServiceUsage.
  destruct (ToolArguments.service args) as [service|]; [|reflexivity].
  destruct (Server.includes _ service) eqn:E; [|reflexivity].
  apply includes_services in E. destruct E as (c & ->).
  exfalso. now apply (Hnot c).
Qed.

Lemma handleGetServiceUsage_valid (engine : Engine.t)
      (args : ToolArguments.t) (c : ServiceType.t) :
  ToolArguments.service args = Some (Server.token c) ->
  exists report : ServiceUsage.t -> string,
    forall m,
      Server.handleGetServiceUsage engine (Some args) m
      = (Server.Returned
           (Server.text_content (report (result (getServiceUsage c m)))),
         m, []).
Proof.
  intros Hs. eexists. intros m.
  unfold Server.handleGetServiceUsage. rewrite Hs.
  rewrite (proj2 (includes_services (Server.token c)))
    by (now exists c).
  cbn [negb]. rewrite as_service_token. unfold bind.
  rewrite (read_only_run (getServiceUsage c) m (getServiceUsage_read_only c)).
  unfold Server.resolve, ret, result, after, calls. cbn [fst snd app].
  generalize (fst (fst (getServiceUsage c m))). intros usage. reflexivity.
Qed.

Lemma callTool_run (engine : Engine.t) (now : Date) (request : Request.t)
      (m : t) :
  let name := Request.name request in
  let args := Request.arguments request in
  let o :=
    (if name =? "get_usage_stats" then Server.handleGetUsageStats engine
     else if name =? "get_service_usage" then
       Server.handleGetServiceUsage engine args
     else if name =? "check_alerts" then Server.handleCheckAlerts engine
     else if name =? "update_usage" then
       Server.handleUpdateUsage engine now args
     else if name =? "set_subscription_tier" then
       Server.handleSetSubscriptionTier engine args
     else if name =? "get_subscription_info" then
       Server.handleGetSubscriptionInfo engine
     else Server.throw (Server.Error ("Unknown tool: " ++ name)))%string m in
  Server.callTool engine now request m
  = (match result o with
     | Server.Returned a => a
     | Server.Thrown (Server.Error message) => Server.error_response message
     | Server.Thrown Server.NotAnError =>
         Server.error_response "Unknown error"
     end, after o, calls o).
Proof.
  cbv zeta. unfold Server.callTool. cbv zeta.
  etransitivity; [apply (try_catch_run _
    (fun error =>
       Response.mk
         [Content.mk "text"
            ("Error: " ++ match error with
                          | Server.Error message => message
                          | Server.NotAnError => "Unknown error"
                          end)%string] (Some true)))|].
  destruct (result _) as [a | [message|]]; reflexivity.
Qed.

(** The request with a name that is spelled out selects its handler. *)
Ltac select_handler :=
  rewrite callTool_run; cbv zeta;
  cbn [Request.name Request.arguments String.eqb Ascii.eqb Bool.eqb].

Lemma handler_of_unknown (engine : Engine.t) (now : Date)
      (request : Request.t) (m : t) :
  ~ In (Request.name request) (map Tool.name Server.listTools) ->
  Server.callTool engine now request m
  = (Server.error_response ("Unknown tool: " ++ Request.name request), m, []).
Proof.
  intros Hnot. rewrite callTool_run. cbv zeta.
  repeat match goal with
         | |- context [(Request.name request =? ?s)%string] =>
             destruct (String.eqb_spec (Request.name request) s) as [E | _];
             [exfalso; apply Hnot; rewrite E; cbn; tauto|]
         end.
  reflexivity.
Qed.

Lemma In_listTools (name : string) :
  In name (map Tool.name Server.listTools) ->
  name = "get_usage_stats"%string \/ name = "get_service_usage"%string
  \/ name = "check_alerts"%string \/ name = "update_usage"%string
  \/ name = "set_subscription_tier"%string
  \/ name = "get_subscription_info"%string.
Proof. cbn. intuition auto. Qed.

Lemma read_only_returns (engine : Engine.t) (now : Date) (name : string)
      (arguments : option ToolArguments.t) (m : t) :
  name = "get_usage_stats"%string \/ name = "check_alerts"%string
  \/ name = "get_subscription_info"%string ->
  exists text,
    Server.callTool engine now (Request.mk name arguments) m
    = (Server.text_content text, m, []).
Proof.
  intros [-> | [-> | ->]]; select_handler.
  - rewrite (read_only_run _ m (handleGetUsageStats_read_only engine)).
    unfold Server.handleGetUsageStats, bind, Server.resolve, ret, result.
    cbn [fst snd]. eexists. reflexivity.
  - rewrite (read_only_run _ m (handleCheckAlerts_read_only engine)).
    unfold Server.handleCheckAlerts, bind, Server.resolve, ret, result.
    cbn [fst snd].
    destruct (Nat.eqb _ _); cbn [fst snd]; eexists; reflexivity.
  - rewrite (read_only_run _ m (handleGetSubscriptionInfo_read_only engine)).
    unfold Server.handleGetSubscriptionInfo, bind, Server.resolve, ret, result.
    cbn [fst snd]. eexists. reflexivity.
Qed.

Lemma get_service_usage_run (engine : Engine.t) (now : Date)
      (args : ToolArguments.t) (m : t) :
  Server.callTool engine now
    (Request.mk "get_service_usage" (Some args)) m
  = (match result (Server.handleGetServiceUsage engine (Some args) m) with
     | Server.Returned a => a
     | Server.Thrown (Server.Error message) => Server.error_response message
     | Server.Thrown Server.NotAnError =>
         Server.error_response "Unknown error"
     end, m, []).
Proof.
  select_handler.
  now rewrite (read_only_run _ m
                 (handleGetServiceUsage_read_only engine (Some args))).
Qed.

(** X11: the tools that [tools/call] handles are those that [tools/list]
    names.  A request for any other name is answered by the error
    'Error: Unknown tool: ' followed by the name, the monitor is left as it
    was and no callback is called; a request for a listed name that comes
    with an arguments object is never answered so. *)
Theorem callTool_handles_listed_tools (engine : Engine.t) (now : Date)
        (name : string) (m : t) :
  (~ In name (map Tool.name Server.listTools) ->
   forall arguments,
     Server.callTool engine now (Request.mk name arguments) m
     = (Server.error_response ("Unknown tool: " ++ name), m, []))
  /\ (In name (map Tool.name Server.listTools) ->
      forall args,
        result (Server.callTool engine now (Request.mk name (Some args)) m)
        <> Server.error_response ("Unknown tool: " ++ name)).
Proof.
  split.
  - intros Hnot arguments.
    apply (handler_of_unknown engine now (Request.mk name arguments) m Hnot).
  - intros Hin args. apply In_listTools in Hin.
    destruct Hin as [-> | [-> | [-> | [-> | [-> | ->]]]]].
    + destruct (read_only_returns engine now "get_usage_stats" (Some args) m)
        as (text & ->); [tauto | discriminate].
    + rewrite get_service_usage_run. cbn [result fst].
      destruct (ToolArguments.service args) as [service|] eqn:Es.
      * destruct (Server.includes
                    ["sonnet45"; "gemini"; "gpt5"; "total"]%string service)
          eqn:E.
        -- apply includes_services in E. destruct E as (c & ->).
           destruct (handleGetServiceUsage_valid engine args c Es)
             as (report & ->).
           discriminate.
        -- rewrite handleGetServiceUsage_invalid; [discriminate|].
           intros c Ec. rewrite Es in Ec. injection Ec as ->.
           rewrite (proj2 (includes_services (Server.token c))) in E
             by (now exists c).
           discriminate.
      * rewrite handleGetServiceUsage_invalid; [discriminate|].
        intros c Ec. rewrite Es in Ec. discriminate.
    + destruct (read_only_returns engine now "check_alerts" (Some args) m)
        as (text & ->); [tauto | discriminate].
    + select_handler. destruct (handleUpdateUsage_run engine) as (text & ->).
      discriminate.
    + select_handler.
      destruct (ToolArguments.tier args) as [tier|] eqn:Et.
      * destruct (in_dec string_dec tier tier_names) as [Hin | Hnot].
        -- destruct (handleSetSubscriptionTier_valid engine args tier m Et Hin)
             as (text & ->).
           discriminate.
        -- rewrite handleSetSubscriptionTier_invalid; [discriminate|].
           intros tier' E'. rewrite Et in E'. now injection E' as <-.
      * rewrite handleSetSubscriptionTier_invalid; [discriminate|].
        intros tier' E'. rewrite Et in E'. discriminate.
    + destruct (read_only_returns engine now "get_subscription_info"
                                  (Some args) m)
        as (text & ->); [tauto | discriminate].
Qed.

Lemma callTool_handles_listed_tools_witness :
  Server.callTool Server.sample_engine 0
    (Request.mk "reset_usage" (Some Server.no_arguments)) (Server.new 0)
  = (Server.error_response "Unknown tool: reset_usage", Server.new 0, [])
  /\ result (Server.callTool Server.sample_engine 0
               (Request.mk "check_alerts" (Some Server.no_arguments))
               (Server.new 0))
     <> Server.error_response "Unknown tool: check_alerts".
Proof.
  split.
  - apply (proj1 (callTool_handles_listed_tools Server.sample_engine 0%Z
                    "reset_usage" (Server.new 0))).
    cbn. intuition discriminate.
  - apply (proj2 (callTool_handles_listed_tools Server.sample_engine 0%Z
                    "check_alerts" (Server.new 0))).
    cbn. tauto.
Defined.

(** X12: [get_service_usage] checks its [service] argument before it
    touches the monitor.  An argument that is absent or none of the four
    tokens is answered by the error 'Error: Invalid service. Must be one
    of: sonnet45, gemini, gpt5, total'; one of the four tokens is answered
    without error by a text that depends on the monitor through
    [getServiceUsage] of that service only.  Either way the monitor is
    left as it was and no callback is called. *)
Theorem get_service_usage_checks_service (engine : Engine.t) (now : Date)
        (args : ToolArguments.t) :
  let request := Request.mk "get_service_usage" (Some args) in
  ((forall c, ToolArguments.service args <> Some (Server.token c)) ->
   forall m,
     Server.callTool engine now request m
     = (Server.error_response
          "Invalid service. Must be one of: sonnet45, gemini, gpt5, total",
        m, []))
  /\ (forall c,
         ToolArguments.service args = Some (Server.token c) ->
         exists report : ServiceUsage.t -> string,
           forall m,
             Server.callTool engine now request m
             = (Server.text_content (report (result (getServiceUsage c m))),
                m, [])).
Proof.
  cbv zeta. split.
  - intros Hnot m. rewrite get_service_usage_run.
    now rewrite handleGetServiceUsage_invalid.
  - intros c Hc.
    destruct (handleGetServiceUsage_valid engine args c Hc) as (report & H).
    exists report. intros m. rewrite get_service_usage_run. now rewrite H.
Qed.

Lemma get_service_usage_checks_service_witness :
  (forall m,
      Server.callTool Server.sample_engine 0
        (Request.mk "get_service_usage"
           (Some (Server.service_argument "Sonnet45"))) m
      = (Server.error_response
           "Invalid service. Must be one of: sonnet45, gemini, gpt5, total",
         m, []))
  /\ exists report : ServiceUsage.t -> string,
       forall m,
         Server.callTool Server.sample_engine 0
           (Request.mk "get_service_usage"
              (Some (Server.service_argument "gpt5"))) m
         = (Server.text_content
              (report (result (getServiceUsage ServiceType.gpt5 m))), m, []).
Proof.
  split.
  - apply (proj1 (get_service_usage_checks_service Server.sample_engine 0%Z
                    (Server.service_argument "Sonnet45"))).
    intros []; discriminate.
  - apply (proj2 (get_service_usage_checks_service Server.sample_engine 0%Z
                    (Server.service_argument "gpt5")) ServiceType.gpt5).
    reflexivity.
Defined.

(** X13: [set_subscription_tier] accepts the three tier names only.  A
    [tier] argument that is absent or no tier name is answered by the error
    'Error: Invalid tier. Must be one of: pro, pro-plus, ultra', with the
    monitor as it was and no callback called (where [updateTier] itself
    would fall back to 'pro' and notify); a tier name is answered without
    error, and the monitor and the calls are those of [updateTier]: the
    quotas are those of the tier, [getCurrentTier] answers it, and the
    counts are as before. *)
Theorem set_subscription_tier_checks_tier (engine : Engine.t) (now : Date)
        (args : ToolArguments.t) (m : t) :
  let out :=
    Server.callTool engine now
      (Request.mk "set_subscription_tier" (Some args)) m in
  ((forall tier, ToolArguments.tier args = Some tier -> ~ In tier tier_names) ->
   out = (Server.error_response
            "Invalid tier. Must be one of: pro, pro-plus, ultra", m, []))
  /\ (forall tier,
         ToolArguments.tier args = Some tier -> In tier tier_names ->
         Response.isError (result out) = None
         /\ after out = after (updateTier tier m)
         /\ calls out = calls (updateTier tier m)
         /\ map fst (calls out) = updateCallbacks m
         /\ result (getCurrentTier (after out)) = tier
         /\ quotas (after out) = getQuotasForTier tier
         /\ limits (after out) = limits m).
Proof.
  cbv zeta. split.
  - intros Hnot. select_handler.
    now rewrite handleSetSubscriptionTier_invalid.
  - intros tier Et Hin. select_handler.
    destruct (handleSetSubscriptionTier_valid engine args tier m Et Hin)
      as (text & ->).
    cbn [result after calls fst snd]. rewrite updateTier_run. cbv zeta.
    cbn [after calls fst snd quotas limits].
    repeat apply conj; try reflexivity.
    + apply map_fst_calls.
    + change (result (getCurrentTier ?x)) with (CursorProQuotas.tier (quotas x)).
      cbn [quotas]. unfold tier_names in Hin. cbn [In] in Hin.
      destruct Hin as [<- | [<- | [<- | []]]]; reflexivity.
Qed.

Lemma set_subscription_tier_checks_tier_witness :
  Server.callTool Server.sample_engine 0
    (Request.mk "set_subscription_tier"
       (Some (Server.tier_argument "enterprise")))
    (registered_monitor [1]%nat)
  = (Server.error_response
       "Invalid tier. Must be one of: pro, pro-plus, ultra",
     registered_monitor [1]%nat, [])
  /\ result (getCurrentTier
               (after (Server.callTool Server.sample_engine 0
                         (Request.mk "set_subscription_tier"
                            (Some (Server.tier_argument "ultra")))
                         (registered_monitor [1]%nat))))
     = "ultra"%string.
Proof.
  split.
  - apply (proj1 (set_subscription_tier_checks_tier Server.sample_engine 0%Z
                    (Server.tier_argument "enterprise")
                    (registered_monitor [1]%nat))).
    intros tier E. injection E as <-. cbn. intuition discriminate.
  - apply (proj2 (set_subscription_tier_checks_tier Server.sample_engine 0%Z
                    (Server.tier_argument "ultra")
                    (registered_monitor [1]%nat)) "ultra"%string).
    + reflexivity.
    + cbn. tauto.
Defined.

(** X14: [update_usage] checks nothing: whatever counts the arguments
    supply (negative ones and [NaN] as well), the answer is one and the
    same text without error, and the monitor and the calls are those of
    [updateLimits] on the supplied counts: a supplied count replaces the
    old one, a count that is not supplied stays, and the time stamp is the
    time of the call. *)
Theorem update_usage_applies_supplied_counts (engine : Engine.t) :
  exists text,
    forall now args m,
      let out :=
        Server.callTool engine now
          (Request.mk "update_usage" (Some args)) m in
      result out = Server.text_content text
      /\ after out = after (updateLimits now (Server.supplied_counts args) m)
      /\ calls out = calls (updateLimits now (Server.supplied_counts args) m)
      /\ (forall c,
             currentOf (after out) c
             = match supplied (Server.supplied_counts args) c with
               | Some v => v
               | None => currentOf m c
               end)
      /\ CursorProLimits.lastUpdated (limits (after out)) = now
      /\ quotas (after out) = quotas m.
Proof.
  destruct (handleUpdateUsage_run engine) as (text & H).
  exists text. intros now args m. cbv zeta. select_handler. rewrite H.
  cbn [result after calls fst snd].
  repeat apply conj; try reflexivity.
  - intros c. apply currentOf_updateLimits.
  - now rewrite updateLimits_run.
  - now rewrite updateLimits_run.
Qed.

Lemma not_listed (name : string) :
  ~ In name (map Tool.name Server.listTools) ->
  (name =? "update_usage")%string = false
  /\ (name =? "set_subscription_tier")%string = false.
Proof.
  intros Hnot. split; apply String.eqb_neq; intros ->; apply Hnot; cbn; tauto.
Qed.

Lemma callTool_perform (engine : Engine.t) (now : Date)
      (request : Request.t) (m : t) :
  let out := Server.callTool engine now request m in
  match Server.operation_of now request with
  | Some op =>
      after out = after (perform op m) /\ calls out = calls (perform op m)
      /\ Response.isError (result out) = None
  | None => after out = m /\ calls out = []
  end.
Proof.
  cbv zeta. destruct request as [name arguments].
  destruct (in_dec string_dec name (map Tool.name Server.listTools))
    as [Hin | Hnot].
  - apply In_listTools in Hin.
    destruct Hin as [-> | [-> | [-> | [-> | [-> | ->]]]]].
    + destruct (read_only_returns engine now "get_usage_stats" arguments m)
        as (text & ->); [tauto|].
      unfold Server.operation_of. cbn [Request.arguments Request.name].
      destruct arguments; split; reflexivity.
    + unfold Server.operation_of. cbn [Request.arguments Request.name].
      assert (H : after (Server.callTool engine now
                           (Request.mk "get_service_usage" arguments) m) = m
                  /\ calls (Server.callTool engine now
                              (Request.mk "get_service_usage" arguments) m)
                     = []).
      { select_handler.
        rewrite (read_only_run _ m
                   (handleGetServiceUsage_read_only engine arguments)).
        split; reflexivity. }
      destruct arguments; exact H.
    + destruct (read_only_returns engine now "check_alerts" arguments m)
        as (text & ->); [tauto|].
      unfold Server.operation_of. cbn [Request.arguments Request.name].
      destruct arguments; split; reflexivity.
    + unfold Server.operation_of. cbn [Request.arguments Request.name].
      destruct arguments as [args|].
      * cbn [String.eqb Ascii.eqb Bool.eqb]. select_handler.
        destruct (handleUpdateUsage_run engine) as (text & ->).
        repeat split.
      * select_handler. split; reflexivity.
    + unfold Server.operation_of. cbn [Request.arguments Request.name].
      destruct arguments as [args|].
      * cbn [String.eqb Ascii.eqb Bool.eqb]. select_handler.
        destruct (ToolArguments.tier args) as [tier|] eqn:Et.
        -- destruct (Server.includes _ tier) eqn:E.
           ++ apply includes_In in E.
              destruct (handleSetSubscriptionTier_valid engine args tier m
                          Et E) as (text & ->).
              repeat split.
           ++ rewrite handleSetSubscriptionTier_invalid; [split; reflexivity|].
              intros tier' E' Hin. rewrite Et in E'. injection E' as <-.
              apply includes_In in Hin. unfold tier_names in Hin. congruence.
        -- rewrite handleSetSubscriptionTier_invalid; [split; reflexivity|].
           intros tier' E'. rewrite Et in E'. discriminate.
      * select_handler. split; reflexivity.
    + destruct (read_only_returns engine now "get_subscription_info"
                                  arguments m)
        as (text & ->); [tauto|].
      unfold Server.operation_of. cbn [Request.arguments Request.name].
      destruct arguments; split; reflexivity.
  - rewrite (handler_of_unknown engine now (Request.mk name arguments) m Hnot).
    destruct (not_listed name Hnot) as [E1 E2].
    unfold Server.operation_of. cbn [Request.arguments Request.name].
    rewrite E1, E2. destruct arguments; split; reflexivity.
Qed.
(** X15: what a request does to the monitor.  [update_usage] with an
    arguments object does what [updateLimits] does with the supplied
    counts, [set_subscription_tier] with a tier name does what [updateTier]
    does, and both are answered without error; every other request (the
    other tools, these two without usable arguments, an unknown name)
    leaves the monitor as it was and calls no callback. *)
Theorem callTool_as_operation (engine : Engine.t) (now : Date)
        (request : Request.t) (m : t) :
  let out := Server.callTool engine now request m in
  match Server.operation_of now request with
  | Some op =>
      after out = after (perform op m) /\ calls out = calls (perform op m)
      /\ Response.isError (result out) = None
  | None => after out = m /\ calls out = []
  end.
Proof. exact (callTool_perform engine now request m). Qed.

Lemma serve_cons (engine : Engine.t) (request : Date * Request.t)
      (requests : list (Date * Request.t)) (m : t) :
  let first := Server.callTool engine (fst request) (snd request) m in
  let rest := Server.serve engine requests (after first) in
  Server.serve engine (request :: requests) m
  = (result first :: result rest, after rest, calls first ++ calls rest).
Proof.
  cbv zeta. unfold Server.serve. cbn [mapM]. unfold bind, ret.
  unfold result, after, calls. cbn [fst snd]. now rewrite app_nil_r.
Qed.

Lemma callTool_keeps (engine : Engine.t) (now : Date) (request : Request.t)
      (m : t) :
  let out := Server.callTool engine now request m in
  (exists ops, after out = after (run ops m)
               /\ (Server.counts_supplied_nonnegative request ->
                   Forall nonnegative ops))
  /\ updateCallbacks (after out) = updateCallbacks m
  /\ (updateCallbacks m = [] -> calls out = []).
Proof.
  cbv zeta.
  pose proof (callTool_perform engine now request m) as H.
  cbv zeta in H.
  destruct (Server.operation_of now request) as [op|] eqn:Eop.
  - destruct H as (Ha & Hc & _). rewrite Ha, Hc.
    unfold Server.operation_of in Eop.
    destruct (Request.arguments request) as [args|] eqn:Eargs;
      [|discriminate].
    destruct (Request.name request =? "update_usage")%string.
    + injection Eop as <-. cbn [perform]. repeat apply conj.
      * exists [UpdateLimits now (Server.supplied_counts args)].
        split; [reflexivity|]. intros Hnn. constructor; [|constructor].
        unfold Server.counts_supplied_nonnegative in Hnn.
        rewrite Eargs in Hnn. exact Hnn.
      * now rewrite updateLimits_run.
      * intros Hnone. rewrite updateLimits_run. cbv zeta. cbn [calls snd].
        now rewrite Hnone.
    + destruct (Request.name request =? "set_subscription_tier")%string;
        [|discriminate].
      destruct (ToolArguments.tier args) as [tier|]; [|discriminate].
      destruct (Server.includes _ tier); [|discriminate].
      injection Eop as <-. cbn [perform]. repeat apply conj.
      * exists [UpdateTier tier]. split; [reflexivity|].
        intros _. constructor; [exact I | constructor].
      * now rewrite updateTier_run.
      * intros Hnone. rewrite updateTier_run. cbv zeta. cbn [calls snd].
        now rewrite Hnone.
  - destruct H as (Ha & Hc). rewrite Ha, Hc. repeat apply conj.
    + exists []. split; [reflexivity | intros _; constructor].
    + reflexivity.
    + reflexivity.
Qed.

Lemma run_app (ops1 ops2 : list Operation) (m : t) :
  after (run (ops1 ++ ops2) m) = after (run ops2 (after (run ops1 m))).
Proof.
  revert m. induction ops1 as [|op ops1 IH]; intros m; [reflexivity|].
  cbn [app]. rewrite (proj1 (run_cons op (ops1 ++ ops2) m)), IH.
  now rewrite (proj1 (run_cons op ops1 m)).
Qed.

Lemma serve_keeps (engine : Engine.t) (requests : list (Date * Request.t))
      (m : t) :
  let out := Server.serve engine requests m in
  (exists ops,
      after out = after (run ops m)
      /\ (Forall (fun request =>
                    Server.counts_supplied_nonnegative (snd request))
                 requests ->
          Forall nonnegative ops))
  /\ updateCallbacks (after out) = updateCallbacks m
  /\ (updateCallbacks m = [] -> calls out = [])
  /\ List.length (result out) = List.length requests.
Proof.
  cbv zeta. revert m.
  induction requests as [|request requests IH]; intros m.
  - repeat apply conj; try reflexivity.
    exists []. split; [reflexivity | intros _; constructor].
  - rewrite serve_cons. cbv zeta. cbn [result after calls fst snd].
    destruct (callTool_keeps engine (fst request) (snd request) m)
      as ((ops1 & Ha1 & Hn1) & Hu1 & Hc1).
    destruct (IH (after (Server.callTool engine (fst request) (snd request) m)))
      as ((ops2 & Ha2 & Hn2) & Hu2 & Hc2 & Hl2).
    unfold result, after, calls in *. repeat apply conj.
    + exists (ops1 ++ ops2). split.
      * rewrite Ha2, Ha1. symmetry. apply run_app.
      * intros Hall. inversion Hall; subst. apply Forall_app. auto.
    + now rewrite Hu2.
    + intros Hnone. rewrite (Hc1 Hnone), Hc2; [reflexivity|].
      now rewrite Hu1.
    + cbn [List.length]. now rewrite Hl2.
Qed.

(** X16: the server builds its monitor with no tier argument and never
    registers a callback.  Whatever requests it handles, one after the
    other, each is answered, no callback is ever called, and the monitor is
    one that the constructor and the operations of the monitor produce (so
    its quotas are a row of the catalogue and no ceiling is zero); when no
    request supplies a negative count, it is one reached without negative
    counts (so every percentage lies between 0 and 100). *)
Theorem serve_reaches (engine : Engine.t) (now : Date)
        (requests : list (Date * Request.t)) :
  let out := Server.serve engine requests (Server.new now) in
  reached (after out)
  /\ updateCallbacks (after out) = []
  /\ calls out = []
  /\ List.length (result out) = List.length requests
  /\ (Forall (fun request =>
                Server.counts_supplied_nonnegative (snd request)) requests ->
      reached_nonnegative (after out)).
Proof.
  cbv zeta.
  destruct (serve_keeps engine requests (Server.new now))
    as ((ops & Ha & Hn) & Hu & Hc & Hl).
  repeat apply conj.
  - exists now, None, ops. exact Ha.
  - exact Hu.
  - apply Hc. reflexivity.
  - exact Hl.
  - intros Hall. exists now, None, ops. split; [apply Hn, Hall | exact Ha].
Qed.

Lemma serve_reaches_witness :
  reached_nonnegative
    (after (Server.serve Server.sample_engine
              [(1%Z, Request.mk "update_usage"
                       (Some (ToolArguments.mk None None (Some 200) None
                                               None None)));
               (2%Z, Request.mk "set_subscription_tier"
                       (Some (Server.tier_argument "ultra")))]
              (Server.new 0))).
Proof.
  apply (serve_reaches Server.sample_engine 0%Z
           [(1%Z, Request.mk "update_usage"
                    (Some (ToolArguments.mk None None (Some 200) None
                                            None None)));
            (2%Z, Request.mk "set_subscription_tier"
                    (Some (Server.tier_argument "ultra")))]).
  constructor; [|constructor; [|constructor]].
  - intros [] v E; inversion E. reflexivity.
  - intros [] v E; inversion E.
Defined.

(** X17: a request without an arguments object.  The three tools that
    read an argument answer it by an error that carries the message of the
    engine's [TypeError], with the monitor as it was and no callback
    called; every other request does not look at the arguments at all. *)
Theorem callTool_without_arguments (engine : Engine.t) (now : Date) (m : t) :
  Server.callTool engine now (Request.mk "get_service_usage" None) m
  = (Server.error_response (Engine.destructureUndefined engine "service"),
     m, [])
  /\ Server.callTool engine now (Request.mk "update_usage" None) m
     = (Server.error_response
          (Engine.readUndefined engine "sonnet45Requests"), m, [])
  /\ Server.callTool engine now (Request.mk "set_subscription_tier" None) m
     = (Server.error_response (Engine.destructureUndefined engine "tier"),
        m, [])
  /\ (forall name,
         ~ In name ["get_service_usage"; "update_usage";
                    "set_subscription_tier"]%string ->
         forall arguments arguments',
           Server.callTool engine now (Request.mk name arguments) m
           = Server.callTool engine now (Request.mk name arguments') m).
Proof.
  repeat apply conj; try (select_handler; reflexivity).
  intros name Hnot arguments arguments'. rewrite !callTool_run. cbv zeta.
  cbn [Request.name Request.arguments].
  destruct (name =? "get_usage_stats")%string; [reflexivity|].
  destruct (String.eqb_spec name "get_service_usage") as [-> | _].
  { exfalso. apply Hnot. cbn. tauto. }
  destruct (name =? "check_alerts")%string; [reflexivity|].
  destruct (String.eqb_spec name "update_usage") as [-> | _].
  { exfalso. apply Hnot. cbn. tauto. }
  destruct (String.eqb_spec name "set_subscription_tier") as [-> | _].
  { exfalso. apply Hnot. cbn. tauto. }
  reflexivity.
Qed.

Lemma callTool_without_arguments_witness :
  Server.callTool Server.sample_engine 0
    (Request.mk "check_alerts" None) (Server.new 0)
  = Server.callTool Server.sample_engine 0
      (Request.mk "check_alerts" (Some (Server.service_argument "gpt5")))
      (Server.new 0).
Proof.
  apply (callTool_without_arguments Server.sample_engine 0%Z (Server.new 0)).
  cbn. intuition discriminate.
Defined.

Lemma isError_of_service (engine : Engine.t) (now : Date) (s : string)
      (m : t) :
  Response.isError
    (result (Server.callTool engine now
               (Request.mk "get_service_usage"
                  (Some (Server.service_argument s))) m)) = None
  <-> exists c, s = Server.token c.
Proof.
  rewrite get_service_usage_run. cbn [result fst]. split.
  - intros H.
    destruct (Server.includes
                ["sonnet45"; "gemini"; "gpt5"; "total"]%string s) eqn:E.
    + now apply includes_services.
    + rewrite handleGetServiceUsage_invalid in H; [discriminate|].
      intros c Ec. injection Ec as ->.
      rewrite (proj2 (includes_services (Server.token c))) in E
        by (now exists c).
      discriminate.
  - intros (c & ->).
    destruct (handleGetServiceUsage_valid engine
                (Server.service_argument (Server.token c)) c eq_refl)
      as (report & ->).
    reflexivity.
Qed.

Lemma isError_of_tier (engine : Engine.t) (now : Date) (s : string) (m : t) :
  Response.isError
    (result (Server.callTool engine now
               (Request.mk "set_subscription_tier"
                  (Some (Server.tier_argument s))) m)) = None
  <-> In s tier_names.
Proof.
  select_handler. split.
  - intros H. destruct (in_dec string_dec s tier_names) as [Hin | Hnot];
      [exact Hin|].
    rewrite handleSetSubscriptionTier_invalid in H; [discriminate|].
    intros tier E. now injection E as <-.
  - intros Hin.
    destruct (handleSetSubscriptionTier_valid engine
                (Server.tier_argument s) s m eq_refl Hin) as (text & ->).
    reflexivity.
Qed.

(** X18: the tool list and the handlers agree.  The tool names are
    distinct; the values that the list allows for the [service] of
    [get_service_usage] are the four tokens, and exactly these are answered
    without error; the values it allows for the [tier] of
    [set_subscription_tier] are the three tier names, exactly these are
    answered without error, and each has a row of its own in
    [getQuotasForTier]. *)
Theorem listed_values_are_the_accepted_ones (engine : Engine.t) (now : Date)
        (m : t) (s : string) :
  NoDup (map Tool.name Server.listTools)
  /\ Server.enum_of "get_service_usage" "service" = map Server.token services
  /\ (In s (Server.enum_of "get_service_usage" "service")
      <-> Response.isError
            (result (Server.callTool engine now
                       (Request.mk "get_service_usage"
                          (Some (Server.service_argument s))) m)) = None)
  /\ Server.enum_of "set_subscription_tier" "tier" = tier_names
  /\ (In s (Server.enum_of "set_subscription_tier" "tier")
      <-> Response.isError
            (result (Server.callTool engine now
                       (Request.mk "set_subscription_tier"
                          (Some (Server.tier_argument s))) m)) = None)
  /\ (In s (Server.enum_of "set_subscription_tier" "tier")
      <-> CursorProQuotas.tier (getQuotasForTier s) = s).
Proof.
  split; [|split; [|split; [|split; [|split]]]].
  - cbn. repeat constructor; cbn; intuition discriminate.
  - reflexivity.
  - rewrite isError_of_service.
    change (Server.enum_of "get_service_usage" "service")
      with (map Server.token services).
    split.
    + intros Hin. apply in_map_iff in Hin. destruct Hin as (c & <- & _).
      now exists c.
    + intros (c & ->). apply in_map, In_services.
  - reflexivity.
  - rewrite isError_of_tier. reflexivity.
  - change (Server.enum_of "set_subscription_tier" "tier") with tier_names.
    split.
    + unfold tier_names. cbn [In].
      intros [<- | [<- | [<- | []]]]; reflexivity.
    + intros E.
      destruct (getQuotasForTier_cases s) as [H | [H | H]];
        rewrite H in E; cbn in E; subst s; cbn; tauto.
Qed.

Lemma filter_none {A : Type} (f : A -> bool) (l : list A) :
  (forall x, In x l -> f x = false) -> filter f l = [].
Proof.
  induction l as [|x rest IH]; intros H; [reflexivity|]. cbn [filter].
  rewrite (H x) by now left. apply IH. intros y Hy. apply H. now right.
Qed.

(** X19: [check_alerts] on a monitor in which no service has its warning
    flag set is answered by one fixed text without error, whatever the
    engine and the arguments, and the monitor is left as it was; a new
    monitor of any tier is such a monitor. *)
Theorem check_alerts_without_alert :
  exists text,
    (forall engine now arguments m,
        (forall c,
            ServiceUsage.isWarning (result (getServiceUsage c m)) = false) ->
        Server.callTool engine now (Request.mk "check_alerts" arguments) m
        = (Server.text_content text, m, []))
    /\ (forall now tier c,
           ServiceUsage.isWarning
             (result (getServiceUsage c (CursorLimitsMonitor.new now tier)))
           = false).
Proof.
  eexists. split.
  - intros engine now arguments m Hquiet. select_handler.
    rewrite (read_only_run _ m (handleCheckAlerts_read_only engine)).
    unfold Server.handleCheckAlerts, bind.
    assert (Hnone : result (checkAlerts m) = []).
    { rewrite checkAlerts_run. cbn [result fst].
      apply filter_none.
      intros usage Hin. apply in_map_iff in Hin.
      destruct Hin as (c & <- & _).
      destruct (getServiceUsage_flags m c) as [Hw Hc].
      rewrite (Hquiet c), orb_false_l.
      destruct (ServiceUsage.isCritical (result (getServiceUsage c m)))
        eqn:Ec; [|reflexivity].
      rewrite <- (Hquiet c), Hw. symmetry.
      apply Binary64.leb_trans_positive with (b := 0.95);
        try reflexivity; try (eexists; eexists; reflexivity).
      now rewrite <- Hc. }
    rewrite Hnone. cbn [List.length Nat.eqb]. reflexivity.
  - intros now tier c. destruct (getServiceUsage_flags (new now tier) c)
      as [-> _].
    rewrite percentageOf_calculatePercentage. unfold new.
    destruct (getQuotasForTier_cases
                match tier with Some v => v | None => "pro"%string end)
      as [E | [E | E]]; unfold ceilingOf, currentOf;
      destruct c; cbn; rewrite E; reflexivity.
Qed.
